(** * smriprep.interfaces.gifti: a shallow embedding and its properties

    The module under study ([smriprep/interfaces/gifti.py]) defines three
    nipype interfaces:

    - [MetricMath], a [SimpleInterface] whose [_run_interface] rewrites one
      GIFTI file (image metadata, map name and the first data array);
    - [MetricFillHoles] and [MetricRemoveIslands], two [WBCommand]
      (command-line) interfaces that are purely declarative: their
      behaviour is that of nipype's [CommandLine] engine applied to the
      trait tables written in the module.

    The embedding keeps Python's observable behaviour explicit: strings
    are [string], an undefined trait is an absent key, exceptions are values
    of [exn], and the file system and the list of spawned processes are
    threaded through a small state-and-exception monad.

    The module is glue over three libraries, which are modelled as far as
    the module uses them:

    - numpy ([np]): element-wise negation, absolute value and comparison on
      the element types of GIFTI, with the wrap-around of the fixed-width
      integers;
    - nibabel ([gifti]): images as records.  What the adapter computes is
      the image it hands to nibabel's writer.  Of the writer the model says
      what is known of it: it may raise, it writes every data array in the
      byte order of the machine, and the data and the coordinate transforms
      it writes (the data cast to the declared datatype, floats at six
      decimals under the ASCII encoding) are left to the [platform];
    - nipype ([nipype]): trait validation on assignment, the mandatory
      check, the derivation of file names from templates and the
      construction of command lines.  What nipype does once it has the command
      line (the processes it spawns, how it treats their exit status) is left
      to the platform as well. *)

From Stdlib Require Import ZArith String Ascii List Lia Bool.
From Stdlib Require Import Floats.SpecFloat.
From stdpp Require Import gmap strings list fin_maps.

Local Open Scope string_scope.
Local Open Scope Z_scope.

(** ** Python exceptions and results *)

(** The exceptions are modelled by their class; of a [TraitError] or a
    nipype [ValueError] the message, which names the offending trait, is not
    modelled. *)
Inductive exn : Type :=
| TraitError                         (* traits: value rejected on assignment *)
| ValueError                         (* nipype: mandatory input missing *)
| KeyError (key : string)            (* dict subscript *)
| IndexError                         (* list subscript *)
| UnboundLocalError (var : string)   (* local read before assignment *)
| TypeError                          (* operand or argument of a wrong type *)
| FormatError                        (* the TypeError or ValueError of [%] *)
| Unsupported                        (* a [%] conversion that is not modelled *)
| FileNotFoundError (path : string)
| ParseError (path : string)         (* nibabel: not a GIFTI file *)
| AttributeError                     (* attribute of None *)
| NipypeInterfaceError.              (* nipype: mutually pointing name_sources *)

Inductive result (A : Type) : Type :=
| Ok (a : A)
| Raise (e : exn).
Arguments Ok {A} a.
Arguments Raise {A} e.

Definition is_ok {A} (r : result A) : bool :=
  match r with Ok _ => true | Raise _ => false end.

Definition result_bind {A B} (r : result A) (k : A -> result B) : result B :=
  match r with
  | Ok a => k a
  | Raise e => Raise e
  end.

(** ** Python strings *)

Module Py.

(** [str(x)] for a trait value: nipype's [Undefined] prints as
    [<undefined>]. *)
Definition str (v : option string) : string :=
  match v with
  | Some s => s
  | None => "<undefined>"
  end.

Definition lower_char (c : ascii) : ascii :=
  let n := N_of_ascii c in
  if ((65 <=? n) && (n <=? 90))%N then ascii_of_N (n + 32) else c.

(** [s.lower()], on the ASCII letters. *)
Fixpoint lower (s : string) : string :=
  match s with
  | EmptyString => EmptyString
  | String c s' => String (lower_char c) (lower s')
  end.

(** [s.startswith(p)] *)
Fixpoint startswith (s p : string) : bool :=
  match p, s with
  | EmptyString, _ => true
  | String a p', String b s' => Ascii.eqb a b && startswith s' p'
  | String _ _, EmptyString => false
  end.

Fixpoint last_char (s : string) : option ascii :=
  match s with
  | EmptyString => None
  | String c EmptyString => Some c
  | String _ s' => last_char s'
  end.

Definition endswith_sep (s : string) : bool :=
  match last_char s with
  | Some c => Ascii.eqb c "/"%char
  | None => false
  end.

(** [os.path.join(a, b)] (posixpath, two components). *)
Definition path_join (a b : string) : string :=
  if startswith b "/" then b
  else if (String.eqb a "" || endswith_sep a)%bool then a +:+ b
  else a +:+ "/" +:+ b.

(** [template % value] for one string argument, on the templates made
    of plain text, [%%] and [%s]: a conversion with flags, width or another
    type is [Unsupported].  [percent_tail] formats what follows the [%s] that
    used the argument: there [%%] is a percent sign and a further [%s] raises
    (not enough arguments).  A template without [%s] raises too (not all
    arguments converted). *)
Fixpoint percent_tail (template : string) : result string :=
  match template with
  | EmptyString => Ok EmptyString
  | String "%" (String "%" rest) =>
      match percent_tail rest with
      | Ok r => Ok (String "%" r)
      | Raise e => Raise e
      end
  | String "%" (String "s" _) => Raise FormatError
  | String "%" _ => Raise Unsupported
  | String c rest =>
      match percent_tail rest with
      | Ok r => Ok (String c r)
      | Raise e => Raise e
      end
  end.

Fixpoint percent (template value : string) : result string :=
  match template with
  | EmptyString => Raise FormatError
  | String "%" (String "s" rest) =>
      match percent_tail rest with
      | Ok r => Ok (value +:+ r)
      | Raise e => Raise e
      end
  | String "%" (String "%" rest) =>
      match percent rest value with
      | Ok r => Ok (String "%" r)
      | Raise e => Raise e
      end
  | String "%" _ => Raise Unsupported
  | String c rest =>
      match percent rest value with
      | Ok r => Ok (String c r)
      | Raise e => Raise e
      end
  end.

(** No [%] occurs in the string. *)
Fixpoint plain (s : string) : bool :=
  match s with
  | EmptyString => true
  | String c s' => negb (Ascii.eqb c "%") && plain s'
  end.

End Py.

(** ** numpy arrays

    A GIFTI data array holds elements of one of the three element types of
    the GIFTI standard: [uint8], [int32] and [float32]; comparisons give
    [bool] arrays.  Integers are kept as [Z] inside the range of their type
    with numpy's wrap-around written out; a [float32] is a [spec_float]
    (sign, mantissa, exponent, with the zeros, infinities and NaN). *)

Module np.

Inductive buffer : Type :=
| UInt8 (l : list Z)
| Int32 (l : list Z)
| Float32 (l : list spec_float)
| Bool_ (l : list bool).

Record ndarray : Type := mk_ndarray {
  shape : list nat;
  elems : buffer
}.

Definition wrap_uint8 (z : Z) : Z := z mod 256.
Definition wrap_int32 (z : Z) : Z := (z + 2147483648) mod 4294967296 - 2147483648.

Definition in_uint8 (z : Z) : Prop := 0 <= z < 256.
Definition in_int32 (z : Z) : Prop := -2147483648 <= z < 2147483648.

Definition wf_buffer (b : buffer) : Prop :=
  match b with
  | UInt8 l => Forall in_uint8 l
  | Int32 l => Forall in_int32 l
  | Float32 _ | Bool_ _ => True
  end.

Definition size (b : buffer) : nat :=
  match b with
  | UInt8 l | Int32 l => length l
  | Float32 l => length l
  | Bool_ l => length l
  end.

(** [-a]: numpy's [negative]; it is not defined on [bool] arrays. *)
Definition negative_buffer (b : buffer) : result buffer :=
  match b with
  | UInt8 l => Ok (UInt8 (map (fun x => wrap_uint8 (- x)) l))
  | Int32 l => Ok (Int32 (map (fun x => wrap_int32 (- x)) l))
  | Float32 l => Ok (Float32 (map SFopp l))
  | Bool_ _ => Raise TypeError
  end.

(** [abs(a)]: numpy's [absolute]. *)
Definition absolute_buffer (b : buffer) : result buffer :=
  match b with
  | UInt8 l => Ok (UInt8 (map (fun x => wrap_uint8 (Z.abs x)) l))
  | Int32 l => Ok (Int32 (map (fun x => wrap_int32 (Z.abs x)) l))
  | Float32 l => Ok (Float32 (map SFabs l))
  | Bool_ l => Ok (Bool_ l)
  end.

(** [a > 0]: always a [bool] array; a NaN is not greater than zero. *)
Definition greater_zero_buffer (b : buffer) : buffer :=
  match b with
  | UInt8 l | Int32 l => Bool_ (map (fun x => 0 <? x) l)
  | Float32 l => Bool_ (map (fun x => SFltb (S754_zero false) x) l)
  | Bool_ l => Bool_ l
  end.

Definition negative (a : ndarray) : result ndarray :=
  result_bind (negative_buffer (elems a)) (fun b => Ok (mk_ndarray (shape a) b)).

Definition absolute (a : ndarray) : result ndarray :=
  result_bind (absolute_buffer (elems a)) (fun b => Ok (mk_ndarray (shape a) b)).

Definition greater_zero (a : ndarray) : ndarray :=
  mk_ndarray (shape a) (greater_zero_buffer (elems a)).

(** The integer value of each element of an integer or [bool] array
    ([True] is 1 and [False] is 0, in Python and when numpy casts a [bool]
    array to [uint8]); [None] for a float array. *)
Definition int_values (b : buffer) : option (list Z) :=
  match b with
  | UInt8 l | Int32 l => Some l
  | Bool_ l => Some (map (fun x : bool => if x then 1 else 0) l)
  | Float32 _ => None
  end.

End np.

(** ** GIFTI images (nibabel)

    Only what the interfaces touch is given structure.  A file of the file
    system that parses as GIFTI is modelled by the image that reading it
    gives. *)

Module gifti.

(** [GiftiCoordSystem]: data space, transformed space and the 4x4
    transform, row by row. *)
Record GiftiCoordSystem : Type := mk_coordsys {
  dataspace : Z;
  xformspace : Z;
  xform : list spec_float
}.

(** A [GiftiMetaData] is a mapping from names to values. *)
Abbreviation GiftiMetaData := (gmap string string).

(** [GiftiDataArray]; [intent], [datatype], [encoding], [endian] and
    [ind_ord] hold the numeric codes of nibabel's recoders. *)
Record GiftiDataArray : Type := mk_darray {
  data : np.ndarray;
  intent : Z;
  datatype : Z;
  encoding : Z;
  endian : Z;
  coordsys : option GiftiCoordSystem;
  ind_ord : Z;
  meta : GiftiMetaData;
  dims : list nat;
  ext_fname : string;
  ext_offset : Z
}.

(** [data_type_codes.code['uint8']], the NIfTI code of [uint8]. *)
Definition NIFTI_TYPE_UINT8 : Z := 2.
Definition NIFTI_TYPE_INT32 : Z := 8.
Definition NIFTI_TYPE_FLOAT32 : Z := 16.

(** The constructor [GiftiDataArray(data, intent=, datatype=, encoding=,
    endian=, coordsys=, ordering=, meta=)].  Each code argument goes through
    its recoder, which maps a code to itself; the dimensions are the shape
    of the data; the external file name and offset, which the call does not
    pass, take their defaults. *)
Definition GiftiDataArray_init (data : np.ndarray) (intent datatype encoding endian : Z)
    (coordsys : option GiftiCoordSystem) (ordering : Z) (meta : GiftiMetaData)
    : GiftiDataArray :=
  {| data := data;
     intent := intent;
     datatype := datatype;
     encoding := encoding;
     endian := endian;
     coordsys := coordsys;
     ind_ord := ordering;
     meta := meta;
     dims := np.shape data;
     ext_fname := "";
     ext_offset := 0 |}.

Record GiftiImage : Type := mk_image {
  img_meta : GiftiMetaData;
  darrays : list GiftiDataArray;
  labeltable : list (Z * string);
  version : string
}.

End gifti.

(** ** The world: files, spawned processes and the platform *)

Inductive file : Type :=
| GiftiFile (img : gifti.GiftiImage)   (* a file that reads as this image *)
| OtherFile (content : string).

(** What the adapters do not decide, and the model does not fix:

    - [byteorder], the code of the machine's byte order
      ([gifti_endian_codes.code[sys.byteorder]]);
    - [reread], the data that an array holds once nibabel has written it
      and read it again (the elements cast to the declared datatype; floats
      rendered with six decimals under the ASCII encoding);
    - [rendered_xform], the transform of a coordinate system once written
      and read again (its entries rendered with six decimals);
    - [write_outcome img path files], what writing [img] at [path] does
      apart from the file at [path] itself: the exception it raises, if
      any, and the other files afterwards (another spelling of [path] names
      the same file; a write that raises may leave a truncated file). *)
Record platform : Type := mk_platform {
  byteorder : Z;
  reread : gifti.GiftiDataArray -> np.ndarray;
  rendered_xform : list spec_float -> list spec_float;
  write_outcome : gifti.GiftiImage -> string -> gmap string file
                  -> option exn * gmap string file
}.

Record world : Type := mk_world {
  files : gmap string file;      (* path, as spelled -> what the file holds *)
  spawned : list string;         (* command lines run so far, oldest first *)
  machine : platform
}.

(** A data array and an image as they read once nibabel has written them:
    the writer sets the byte order of every array to that of the machine
    and renders its data and the transform of its coordinate system; the
    other attributes are written as they are. *)
Definition coordsys_as_written (m : platform) (c : gifti.GiftiCoordSystem)
    : gifti.GiftiCoordSystem :=
  gifti.mk_coordsys (gifti.dataspace c) (gifti.xformspace c)
    (rendered_xform m (gifti.xform c)).

Definition darray_as_written (m : platform) (d : gifti.GiftiDataArray)
    : gifti.GiftiDataArray :=
  gifti.mk_darray (reread m d) (gifti.intent d) (gifti.datatype d) (gifti.encoding d)
    (byteorder m) (coordsys_as_written m <$> gifti.coordsys d) (gifti.ind_ord d)
    (gifti.meta d) (gifti.dims d) (gifti.ext_fname d) (gifti.ext_offset d).

Definition as_written (m : platform) (img : gifti.GiftiImage) : gifti.GiftiImage :=
  gifti.mk_image (gifti.img_meta img) (darray_as_written m <$> gifti.darrays img)
    (gifti.labeltable img) (gifti.version img).

(** State-and-exception monad: an exception leaves the world as it was
    when it was raised. *)
Definition M (A : Type) : Type := world -> result A * world.

Definition ret {A} (a : A) : M A := fun w => (Ok a, w).
Definition raise {A} (e : exn) : M A := fun w => (Raise e, w).
Definition bind {A B} (m : M A) (k : A -> M B) : M B :=
  fun w => match m w with
           | (Ok a, w') => k a w'
           | (Raise e, w') => (Raise e, w')
           end.
Definition lift {A} (r : result A) : M A := fun w => (r, w).

Notation "'let*' x ':=' m 'in' k" := (bind m (fun x => k))
  (at level 10, x name, m at level 100, k at level 200).
Notation "'do' m 'in' k" := (bind m (fun _ => k))
  (at level 10, m at level 100, k at level 200).

Definition path_exists (path : string) (w : world) : bool :=
  bool_decide (is_Some (files w !! path)).

(** [nb.GiftiImage.from_filename(path)]; an undefined path is not a path. *)
Definition from_filename (path : option string) : M gifti.GiftiImage :=
  fun w =>
    match path with
    | None => (Raise TypeError, w)
    | Some p =>
        match files w !! p with
        | None => (Raise (FileNotFoundError p), w)
        | Some (OtherFile _) => (Raise (ParseError p), w)
        | Some (GiftiFile img) => (Ok img, w)
        end
    end.

(** [img.to_filename(path)]: unless the write raises, the file at [path]
    is created or replaced, and reads as the image as written. *)
Definition to_filename (img : gifti.GiftiImage) (path : string) : M unit :=
  fun w =>
    match write_outcome (machine w) img path (files w) with
    | (Some e, files') => (Raise e, mk_world files' (spawned w) (machine w))
    | (None, files') =>
        (Ok tt,
         mk_world (<[path := GiftiFile (as_written (machine w) img)]> files')
           (spawned w) (machine w))
    end.

(** ** nipype: traited input specifications

    An input specification is the table of its traits, in the order of the
    class body; the inputs of an interface map the names of the defined
    traits to their values (an absent name is nipype's [Undefined]). *)

Module nipype.

Inductive trait_type : Type :=
| Str                              (* traits.Str *)
| Enum (values : list string)      (* traits.Enum(v1, v2, ...) *)
| File (exists_ : bool).           (* File(exists=...) *)

Record trait : Type := mk_trait {
  ttype : trait_type;
  mandatory : bool;
  argstr : option string;
  position : option Z;
  name_template : option string;
  name_source : option string;
  keep_extension : bool
}.

Definition TraitedSpec : Type := list (string * trait).

Abbreviation Inputs := (gmap string string).

Definition trait_of (spec : TraitedSpec) (name : string) : option trait :=
  snd <$> List.find (fun nt => String.eqb (fst nt) name) spec.

(** Validation of the value [v] assigned to the trait [name]: an [Enum]
    accepts only its listed values, a [File] with [exists=True] only the
    path of a file. *)
Definition validate (name : string) (t : trait) (v : string) : M unit :=
  match ttype t with
  | Str => ret tt
  | Enum values =>
      if bool_decide (v ∈ values) then ret tt else raise TraitError
  | File exists_ =>
      fun w => if (negb exists_ || path_exists v w)%bool
               then (Ok tt, w) else (Raise TraitError, w)
  end.

(** Assigning the inputs [raw] to an interface with specification [spec].
    The traits are gone through in the order of the class body; nipype
    assigns in the order of the keyword arguments, which changes only the
    trait that the message of a [TraitError] names. *)
Fixpoint set_inputs (spec : TraitedSpec) (raw : Inputs) : M unit :=
  match spec with
  | [] => ret tt
  | (name, t) :: spec' =>
      do (match raw !! name with
          | Some v => validate name t v
          | None => ret tt
          end) in
      set_inputs spec' raw
  end.

(** [_check_mandatory_inputs]: every [mandatory=True] trait is defined. *)
Fixpoint _check_mandatory_inputs (spec : TraitedSpec) (inputs : Inputs) : result unit :=
  match spec with
  | [] => Ok tt
  | (name, t) :: spec' =>
      if (mandatory t && negb (bool_decide (is_Some (inputs !! name))))%bool
      then Raise ValueError
      else _check_mandatory_inputs spec' inputs
  end.

(** *** File names (nipype.utils.filemanip, posixpath) *)

(** [os.path.basename]: what follows the last [/]. *)
Fixpoint basename_from (rest current : string) : string :=
  match rest with
  | EmptyString => current
  | String c rest' =>
      if Ascii.eqb c "/" then basename_from rest' rest' else basename_from rest' current
  end.
Definition basename (p : string) : string := basename_from p p.

(** [os.path.dirname]: what precedes the last [/], without trailing
    separators unless it consists of separators only. *)
Fixpoint all_chars (c : ascii) (s : string) : bool :=
  match s with
  | EmptyString => true
  | String d s' => Ascii.eqb d c && all_chars c s'
  end.
Fixpoint rstrip_sep (s : string) : string :=
  match s with
  | EmptyString => EmptyString
  | String c s' => if all_chars "/" s then EmptyString else String c (rstrip_sep s')
  end.
Definition dirname (p : string) : string :=
  let head := substring 0 (String.length p - String.length (basename p)) p in
  if all_chars "/" head then head else rstrip_sep head.

(** The split of a name at its last dot, if it has one. *)
Fixpoint rsplit_dot (s : string) : option (string * string) :=
  match s with
  | EmptyString => None
  | String c s' =>
      match rsplit_dot s' with
      | Some (root, ext) => Some (String c root, ext)
      | None => if Ascii.eqb c "." then Some (EmptyString, s) else None
      end
  end.

(** [os.path.splitext] on a name without separator: the extension starts
    at the last dot, unless only dots precede it. *)
Definition splitext (p : string) : string * string :=
  match rsplit_dot p with
  | Some (root, ext) => if all_chars "." root then (p, "") else (root, ext)
  | None => (p, "")
  end.

Definition special_extensions : list string := [".nii.gz"; ".tar.gz"; ".niml.dset"].

(** The loop of [split_filename] over the special extensions. *)
Fixpoint split_special (fname : string) (exts : list string) : option (string * string) :=
  match exts with
  | [] => None
  | special_ext :: exts' =>
      let ext_len := String.length special_ext in
      let n := String.length fname in
      if ((ext_len <? n)%nat &&
          String.eqb (Py.lower (substring (n - ext_len) ext_len fname))
                     (Py.lower special_ext))%bool
      then Some (substring 0 (n - ext_len) fname, substring (n - ext_len) ext_len fname)
      else split_special fname exts'
  end.

(** [split_filename(fname)]: directory, base name and extension. *)
Definition split_filename (fname : string) : string * string * string :=
  let pth := dirname fname in
  let fname := basename fname in
  match split_special fname special_extensions with
  | Some (fname, ext) => (pth, fname, ext)
  | None => let '(fname, ext) := splitext fname in (pth, fname, ext)
  end.

(** *** Command lines (nipype.interfaces.base.core.CommandLine) *)

Record CommandLine : Type := mk_command {
  _cmd : string;
  input_spec : TraitedSpec
}.

(** ["%s" in s] *)
Fixpoint has_conversion (s : string) : bool :=
  match s with
  | EmptyString => false
  | String "%" (String "s" _) => true
  | String _ s' => has_conversion s'
  end.

(** [_filename_from_source(name, chain)].  A trait with a [name_source]
    that is undefined (or whose value holds a [%s]) gets its template
    filled with the base name of the source's value.  The recursion
    through undefined sources is bounded by [fuel]: nipype's [chain] check
    stops it within the number of traits.  [_overload_extension] is the
    identity; no trait of this module declares [xor] or [requires]. *)
Fixpoint _filename_from_source (fuel : nat) (spec : TraitedSpec) (inputs : Inputs)
    (name : string) (chain : list string) : result (option string) :=
  match fuel with
  | O => Raise NipypeInterfaceError
  | S fuel' =>
      match trait_of spec name with
      | None => Raise AttributeError
      | Some trait_spec =>
          let retval := inputs !! name in
          if (bool_decide (retval = None) || has_conversion (default "" retval))%bool then
            match name_source trait_spec with
            | None => Ok retval
            | Some ns =>
                let name_template :=
                  match retval with
                  | Some r => Some r
                  | None => name_template trait_spec
                  end in
                let name_template :=
                  match name_template with
                  | None | Some EmptyString => "%s_generated"
                  | Some t => t
                  end in
                result_bind
                  (match inputs !! ns with
                   | Some source =>
                       let '(_, base, source_ext) := split_filename source in
                       Ok (Some (base, source_ext))
                   | None =>
                       if bool_decide (name ∈ chain) then Raise NipypeInterfaceError
                       else
                         result_bind
                           (_filename_from_source fuel' spec inputs ns (chain ++ [name])%list)
                           (fun base =>
                              match base with
                              | Some b =>
                                  let '(_, _, source_ext) := split_filename b in
                                  Ok (Some (b, source_ext))
                              | None => Ok None
                              end)
                   end)
                  (fun found =>
                     match found with
                     | None => Ok retval
                     | Some (base, source_ext) =>
                         result_bind (Py.percent name_template base) (fun retval =>
                           let '(_, _, ext) := split_filename retval in
                           if (keep_extension trait_spec &&
                               negb (String.eqb ext "" && String.eqb source_ext ""))%bool
                           then
                             if (String.eqb ext "" && negb (String.eqb source_ext ""))%bool
                             then Ok (Some (retval +:+ source_ext))
                             else Ok (Some retval)
                           else Ok (Some retval))
                     end)
            end
          else Ok retval
      end
  end.

(** Insertion in a list of arguments kept sorted by key; as in a Python
    dict, a later entry replaces an earlier one with the same key. *)
Fixpoint insert_sorted {K} (leb : K -> K -> bool) (eqb : K -> K -> bool)
    (k : K) (v : string) (l : list (K * string)) : list (K * string) :=
  match l with
  | [] => [(k, v)]
  | (k', v') :: l' =>
      if eqb k k' then (k, v) :: l'
      else if leb k k' then (k, v) :: l
      else (k', v') :: insert_sorted leb eqb k v l'
  end.

(** [sorted(self.inputs.traits(argstr=...).items())]: the traits that
    have an [argstr], by name. *)
Fixpoint insert_by_name (nt : string * trait) (l : TraitedSpec) : TraitedSpec :=
  match l with
  | [] => [nt]
  | nt' :: l' =>
      if String.leb (fst nt) (fst nt') then nt :: l else nt' :: insert_by_name nt l'
  end.
Definition sorted_argstr_traits (spec : TraitedSpec) : TraitedSpec :=
  foldr insert_by_name []
    (List.filter (fun nt => bool_decide (is_Some (argstr (snd nt)))) spec).

Record parsed_args : Type := mk_parsed {
  initial_args : list (Z * string);   (* position >= 0, by position *)
  all_args : list string;             (* no position, in order of name *)
  final_args : list (Z * string)      (* position < 0, by position *)
}.

(** The loop of [_parse_inputs]. *)
Fixpoint parse_loop (spec : TraitedSpec) (inputs : Inputs) (todo : TraitedSpec)
    (acc : parsed_args) : result parsed_args :=
  match todo with
  | [] => Ok acc
  | (name, trait_spec) :: todo' =>
      result_bind
        (match name_source trait_spec with
         | Some _ => _filename_from_source (S (length spec)) spec inputs name []
         | None => Ok (inputs !! name)
         end)
        (fun value =>
           match value with
           | None => parse_loop spec inputs todo' acc
           | Some value =>
               (* _format_arg: argstr % value *)
               result_bind (Py.percent (default "" (argstr trait_spec)) value) (fun arg =>
                 parse_loop spec inputs todo'
                   match position trait_spec with
                   | Some pos =>
                       if 0 <=? pos
                       then mk_parsed (insert_sorted Z.leb Z.eqb pos arg (initial_args acc))
                                      (all_args acc) (final_args acc)
                       else mk_parsed (initial_args acc) (all_args acc)
                                      (insert_sorted Z.leb Z.eqb pos arg (final_args acc))
                   | None =>
                       mk_parsed (initial_args acc) (all_args acc ++ [arg])%list (final_args acc)
                   end)
           end)
  end.

(** [_parse_inputs]: the positional arguments with a non-negative
    position, then the arguments without position, then those with a
    negative position. *)
Definition _parse_inputs (c : CommandLine) (inputs : Inputs) : result (list string) :=
  result_bind
    (parse_loop (input_spec c) inputs (sorted_argstr_traits (input_spec c))
                (mk_parsed [] [] []))
    (fun p => Ok ((snd <$> initial_args p) ++ all_args p ++ (snd <$> final_args p))%list).

(** The [cmdline] property. *)
Definition cmdline (c : CommandLine) (inputs : Inputs) : result string :=
  result_bind (_check_mandatory_inputs (input_spec c) inputs) (fun _ =>
  result_bind (_parse_inputs c inputs) (fun args =>
  Ok (String.concat " " (_cmd c :: args)))).

Section Run.

(** What nipype does with a command line once the inputs are accepted:
    the processes it spawns for it (the command itself, the query of the
    tool's version) and what it makes of their exit status. *)
Variable execute : string -> M unit.

(** [CommandLine.run]: the mandatory inputs are checked and the command
    line is built before anything is executed.  Of the result only the
    command line ([runtime.cmdline]) is kept. *)
Definition run (c : CommandLine) (inputs : Inputs) : M string :=
  do lift (_check_mandatory_inputs (input_spec c) inputs) in
  let* cmd := lift (cmdline c inputs) in
  do execute cmd in
  ret cmd.

(** Building the interface from the inputs [raw], then running it. *)
Definition call (c : CommandLine) (raw : Inputs) : M string :=
  do set_inputs (input_spec c) raw in
  run c raw.

End Run.

End nipype.

(** Python subscripts. *)
Definition dict_getitem (d : gmap string string) (k : string) : result string :=
  match d !! k with
  | Some v => Ok v
  | None => Raise (KeyError k)
  end.

Definition list_getitem {A} (l : list A) (i : nat) : result A :=
  match l !! i with
  | Some x => Ok x
  | None => Raise IndexError
  end.

(** Reading a local variable that may not have been assigned. *)
Definition local {A} (name : string) (v : option A) : result A :=
  match v with
  | Some a => Ok a
  | None => Raise (UnboundLocalError name)
  end.

(** ** MetricMath *)

Module MetricMath.
Import gifti nipype.

Definition MetricMathInputSpec : TraitedSpec :=
  [ ("subject_id",
      {| ttype := Str; mandatory := false; argstr := None; position := None;
         name_template := None; name_source := None; keep_extension := false |});
    ("hemisphere",
      {| ttype := Enum ["L"; "R"]; mandatory := true; argstr := None; position := None;
         name_template := None; name_source := None; keep_extension := false |});
    ("metric",
      {| ttype := Str; mandatory := false; argstr := None; position := None;
         name_template := None; name_source := None; keep_extension := false |});
    ("metric_file",
      {| ttype := File true; mandatory := true; argstr := None; position := None;
         name_template := None; name_source := None; keep_extension := false |});
    ("operation",
      {| ttype := Enum ["invert"; "abs"; "bin"]; mandatory := true; argstr := None;
         position := None;
         name_template := None; name_source := None; keep_extension := false |}) ].

(** [{'L': 'CortexLeft', 'R': 'CortexRight'}] *)
Definition structures : gmap string string :=
  <["L" := "CortexLeft"]> (<["R" := "CortexRight"]> ∅).

(** The [if]/[elif] chain on the operation: the values it leaves in the
    locals [data] (unbound, [None], before the chain) and [datatype]. *)
Definition apply_operation (operation : option string) (darray : GiftiDataArray)
    : result (option np.ndarray * Z) :=
  let datatype := datatype darray in
  if bool_decide (operation = Some "abs") then
    result_bind (np.absolute (data darray)) (fun d => Ok (Some d, datatype))
  else if bool_decide (operation = Some "invert") then
    result_bind (np.negative (data darray)) (fun d => Ok (Some d, datatype))
  else if bool_decide (operation = Some "bin") then
    Ok (Some (np.greater_zero (data darray)), NIFTI_TYPE_UINT8)
  else
    Ok (None, datatype).

Definition _run_interface (cwd : string) (inputs : Inputs) : M string :=
  let subject := inputs !! "subject_id" in
  let hemi := inputs !! "hemisphere" in
  let metric := inputs !! "metric" in
  let subject := match subject with None => Some "sub-XYZ" | Some _ => subject end in
  let* img := from_filename (inputs !! "metric_file") in
  let* structure := lift (dict_getitem structures (Py.str hemi)) in
  let img_meta' := <["AnatomicalStructurePrimary" := structure]> (img_meta img) in
  let* darray := lift (list_getitem (darrays img) 0) in
  let meta := <["Name" := Py.str subject +:+ "_" +:+ Py.str hemi +:+ "_" +:+ Py.str metric]>
                (meta darray) in
  let* locals := lift (apply_operation (inputs !! "operation") darray) in
  let datatype := snd locals in
  let* data := lift (local "data" (fst locals)) in
  let darray := GiftiDataArray_init data (intent darray) datatype (encoding darray)
                  (endian darray) (coordsys darray) (ind_ord darray) meta in
  let img := mk_image img_meta' (<[0%nat := darray]> (darrays img))
               (labeltable img) (version img) in
  let hemi_lower := Py.lower (Py.str hemi) in
  let out_filename :=
    Py.path_join cwd (hemi_lower +:+ "h." +:+ Py.str metric +:+ ".native.shape.gii") in
  do to_filename img out_filename in
  ret out_filename.

(** [SimpleInterface.run]: the mandatory inputs are checked, then
    [_run_interface] runs; the result is the output [metric_file]. *)
Definition run (cwd : string) (inputs : Inputs) : M string :=
  do lift (_check_mandatory_inputs MetricMathInputSpec inputs) in
  _run_interface cwd inputs.

(** Building the interface from the inputs [raw] and running it in the
    working directory [cwd]. *)
Definition call (cwd : string) (raw : Inputs) : M string :=
  do set_inputs MetricMathInputSpec raw in
  run cwd raw.

End MetricMath.

(** ** MetricFillHoles and MetricRemoveIslands *)

Module MetricFillHoles.
Import nipype.

Definition MetricFillHolesInputSpec : TraitedSpec :=
  [ ("surface_file",
      {| ttype := File true; mandatory := true; argstr := Some "%s"; position := Some 1;
         name_template := None; name_source := None; keep_extension := false |});
    ("metric_file",
      {| ttype := File true; mandatory := true; argstr := Some "%s"; position := Some 2;
         name_template := None; name_source := None; keep_extension := false |});
    ("out_file",
      {| ttype := File false; mandatory := false; argstr := Some "%s"; position := Some 3;
         name_template := Some "%s_filled.shape.gii"; name_source := Some "metric_file";
         keep_extension := false |});
    ("corrected_areas",
      {| ttype := File true; mandatory := false; argstr := Some "-corrected-areas %s";
         position := None;
         name_template := None; name_source := None; keep_extension := false |}) ].

Definition MetricFillHoles : CommandLine :=
  {| _cmd := "wb_command -metric-fill-holes";
     input_spec := MetricFillHolesInputSpec |}.

End MetricFillHoles.

Module MetricRemoveIslands.
Import nipype.

Definition MetricRemoveIslandsInputSpec : TraitedSpec :=
  [ ("surface_file",
      {| ttype := File true; mandatory := true; argstr := Some "%s"; position := Some 1;
         name_template := None; name_source := None; keep_extension := false |});
    ("metric_file",
      {| ttype := File true; mandatory := true; argstr := Some "%s"; position := Some 2;
         name_template := None; name_source := None; keep_extension := false |});
    ("out_file",
      {| ttype := File false; mandatory := false; argstr := Some "%s"; position := Some 3;
         name_template := Some "%s_noislands.shape.gii"; name_source := Some "metric_file";
         keep_extension := false |});
    ("corrected_areas",
      {| ttype := File true; mandatory := false; argstr := Some "-corrected-areas %s";
         position := None;
         name_template := None; name_source := None; keep_extension := false |}) ].

Definition MetricRemoveIslands : CommandLine :=
  {| _cmd := "wb_command -metric-remove-islands";
     input_spec := MetricRemoveIslandsInputSpec |}.

End MetricRemoveIslands.

(** ** Observations on a run *)

Module Obs.
Import gifti nipype.

(** The image held by the file named by the input [metric_file]. *)
Definition input_image (inputs : Inputs) (w : world) : option GiftiImage :=
  match inputs !! "metric_file" with
  | Some p => match files w !! p with
              | Some (GiftiFile img) => Some img
              | _ => None
              end
  | None => None
  end.

(** Lines 52 to 88 of [_run_interface], which come before the write: the
    image that the adapter builds, and the path at which it will ask nibabel
    to write it.  [_run_interface] is these lines followed by
    [to_filename] (lemma [run_interface_prepare]). *)
Definition prepare (cwd : string) (inputs : Inputs) (w : world)
    : result (GiftiImage * string) :=
  let subject := inputs !! "subject_id" in
  let hemi := inputs !! "hemisphere" in
  let metric := inputs !! "metric" in
  let subject := match subject with None => Some "sub-XYZ" | Some _ => subject end in
  result_bind (from_filename (inputs !! "metric_file") w).1 (fun img =>
  result_bind (dict_getitem MetricMath.structures (Py.str hemi)) (fun structure =>
  let img_meta' := <["AnatomicalStructurePrimary" := structure]> (img_meta img) in
  result_bind (list_getitem (darrays img) 0) (fun darray =>
  let meta := <["Name" := Py.str subject +:+ "_" +:+ Py.str hemi +:+ "_" +:+ Py.str metric]>
                (meta darray) in
  result_bind (MetricMath.apply_operation (inputs !! "operation") darray) (fun locals =>
  let datatype := snd locals in
  result_bind (local "data" (fst locals)) (fun data =>
  let darray := GiftiDataArray_init data (intent darray) datatype (encoding darray)
                  (endian darray) (coordsys darray) (ind_ord darray) meta in
  let img := mk_image img_meta' (<[0%nat := darray]> (darrays img))
               (labeltable img) (version img) in
  let hemi_lower := Py.lower (Py.str hemi) in
  let out_filename :=
    Py.path_join cwd (hemi_lower +:+ "h." +:+ Py.str metric +:+ ".native.shape.gii") in
  Ok (img, out_filename)))))).

(** The image that the adapter hands to the writer. *)
Definition handed (r : result (GiftiImage * string)) : option GiftiImage :=
  match r with
  | Ok (img, _) => Some img
  | Raise _ => None
  end.

(** The image that the file at a path reads as. *)
Definition image_at (w : world) (path : string) : option GiftiImage :=
  match files w !! path with
  | Some (GiftiFile img) => Some img
  | _ => None
  end.

Definition first_darray (img : option GiftiImage) : option GiftiDataArray :=
  match img with
  | Some i => darrays i !! 0%nat
  | None => None
  end.

(** The elements of a data array and, for the integer and [bool] element
    types, their integer values. *)
Definition elements (d : option GiftiDataArray) : option np.buffer :=
  (fun d => np.elems (data d)) <$> d.

Definition values (d : option GiftiDataArray) : option (list Z) :=
  match d with
  | Some d => np.int_values (np.elems (data d))
  | None => None
  end.

(** An input error: a value rejected on assignment, or a mandatory
    input left undefined. *)
Definition is_input_error (e : exn) : bool :=
  match e with
  | TraitError | ValueError => true
  | _ => false
  end.

(** A run that raised and left the world (the files and the list of
    spawned processes) as it was. *)
Definition fails_cleanly {A} (m : M A) (w : world) : Prop :=
  exists e, m w = (Raise e, w).

(** The same, the exception being an input error. *)
Definition fails_on_input {A} (m : M A) (w : world) : Prop :=
  exists e, m w = (Raise e, w) /\ is_input_error e = true.

(** A completed invocation of MetricMath, from the world [w] to the path
    [out] and the world [w']: it read the image [img] with first data array
    [d0], built the image [img'] with first data array [d0'], and the write
    of [img'] at [out] went through. *)
Definition transforms (cwd : string) (raw : Inputs) (w : world)
    (out : string) (w' : world)
    (img : GiftiImage) (d0 : GiftiDataArray)
    (img' : GiftiImage) (d0' : GiftiDataArray) : Prop :=
  input_image raw w = Some img /\ darrays img !! 0%nat = Some d0 /\
  prepare cwd raw w = Ok (img', out) /\ darrays img' !! 0%nat = Some d0' /\
  to_filename img' out w = (Ok tt, w').

End Obs.

(** ** Test data *)

Module Examples.
Import gifti nipype.

(** A little-endian machine on which every write goes through and leaves
    the other files alone, and which writes the elements and the transforms
    as they are, a [bool] array as 0 and 1 in [uint8]. *)
Definition pc : platform :=
  mk_platform 2
    (fun d => match np.elems (data d) with
              | np.Bool_ l =>
                  np.mk_ndarray (np.shape (data d))
                    (np.UInt8 (map (fun x : bool => if x then 1 else 0) l))
              | _ => data d
              end)
    (fun xform => xform)
    (fun _ _ fs => (None, fs)).

(** The same machine with a working directory that does not exist: every
    write raises, and leaves the files as they are. *)
Definition no_directory : platform :=
  mk_platform 2 (reread pc) (rendered_xform pc)
    (fun _ path fs => (Some (FileNotFoundError path), fs)).

Definition darray_of (b : np.buffer) (dt : Z) : GiftiDataArray :=
  {| data := np.mk_ndarray [np.size b] b; intent := 2005; datatype := dt;
     encoding := 3; endian := 2; coordsys := None; ind_ord := 1;
     meta := {["Name" := "old"]}; dims := [np.size b];
     ext_fname := ""; ext_offset := 0 |}.

Definition image_of (b : np.buffer) (dt : Z) : GiftiImage :=
  {| img_meta := {["AnatomicalStructurePrimary" := "Invalid"]};
     darrays := [darray_of b dt];
     labeltable := []; version := "1.0" |}.

Definition world_of (b : np.buffer) (dt : Z) : world :=
  mk_world {["in.shape.gii" := GiftiFile (image_of b dt)]} [] pc.

Definition inputs_of (op : string) : Inputs :=
  {[ "hemisphere" := "L"; "metric" := "thickness";
     "metric_file" := "in.shape.gii"; "operation" := op ]}.

(** The array [-2, 0, 3] as [int32] and as [float32] (-2 is
    -(2^23 * 2^-22) and 3 is 12582912 * 2^-22). *)
Definition ints : np.buffer := np.Int32 [-2; 0; 3].
Definition floats : np.buffer :=
  np.Float32 [S754_finite true 8388608 (-22); S754_zero false;
              S754_finite false 12582912 (-22)].

(** The first data array of the image that MetricMath builds and hands
    to the writer, for the operation [op] on a file holding the buffer
    [b]. *)
Definition transformed (op : string) (b : np.buffer) (dt : Z) : option GiftiDataArray :=
  Obs.first_darray (Obs.handed (Obs.prepare "/work" (inputs_of op) (world_of b dt))).

(** The path that the calls on these inputs return in /work, and the
    world that the call for the operation [op] leaves. *)
Definition out_path : string := "/work/lh.thickness.native.shape.gii".
Definition after (op : string) (w : world) : world :=
  (MetricMath.call "/work" (inputs_of op) w).2.

(** The least [int32], alone in an array, and a [uint8] array. *)
Definition int32_min : np.buffer := np.Int32 [-2147483648].
Definition bytes : np.buffer := np.UInt8 [3].

Definition wb_inputs : Inputs :=
  {[ "surface_file" := "lh.midthickness.surf.gii"; "metric_file" := "lh.roi.shape.gii" ]}.

Definition wb_inputs_areas : Inputs := <["corrected_areas" := "areas.shape.gii"]> wb_inputs.

(** A world without any file. *)
Definition empty_world : world := mk_world ∅ [] pc.

(** An execution that spawns the command line, and nothing else. *)
Definition quiet_tool (cmd : string) : M unit :=
  fun w => (Ok tt, mk_world (files w) (spawned w ++ [cmd])%list (machine w)).

End Examples.

(** ** Element-wise description of the three operations

    What [invert], [abs] and [bin] do to one element, written without
    reference to numpy: on [int32] the value -2^31 has no opposite in the
    type and is left as it is; on [uint8] the opposite is taken modulo 256. *)

Module Elementwise.

Definition int32_opp (x : Z) : Z := if x =? -2147483648 then x else - x.
Definition int32_abs (x : Z) : Z := if x =? -2147483648 then x else Z.abs x.
Definition uint8_opp (x : Z) : Z := if x =? 0 then 0 else 256 - x.

Definition inverted (b : np.buffer) : option np.buffer :=
  match b with
  | np.UInt8 l => Some (np.UInt8 (map uint8_opp l))
  | np.Int32 l => Some (np.Int32 (map int32_opp l))
  | np.Float32 l => Some (np.Float32 (map SFopp l))
  | np.Bool_ _ => None
  end.

Definition absolute_values (b : np.buffer) : np.buffer :=
  match b with
  | np.UInt8 l => np.UInt8 l
  | np.Int32 l => np.Int32 (map int32_abs l)
  | np.Float32 l => np.Float32 (map SFabs l)
  | np.Bool_ l => np.Bool_ l
  end.

(** 1 where the element is greater than zero, 0 elsewhere. *)
Definition positive_mask (b : np.buffer) : list Z :=
  match b with
  | np.UInt8 l | np.Int32 l => map (fun x => if 0 <? x then 1 else 0) l
  | np.Float32 l => map (fun x => if SFltb (S754_zero false) x then 1 else 0) l
  | np.Bool_ l => map (fun x : bool => if x then 1 else 0) l
  end.

(** A buffer of one of the three GIFTI element types, every element in
    the range of its type. *)
Definition gifti_buffer (b : np.buffer) : Prop :=
  match b with
  | np.UInt8 l => Forall np.in_uint8 l
  | np.Int32 l => Forall np.in_int32 l
  | np.Float32 _ => True
  | np.Bool_ _ => False
  end.

End Elementwise.

(** ** The two workbench wrappers side by side *)

Module WB.
Import nipype.

(** The input tables of the two wrappers differ in the suffix of the
    output name template only: both are this table, at [_filled.shape.gii]
    and at [_noislands.shape.gii]. *)
Definition wb_metric_spec (suffix : string) : TraitedSpec :=
  [ ("surface_file",
      {| ttype := File true; mandatory := true; argstr := Some "%s"; position := Some 1;
         name_template := None; name_source := None; keep_extension := false |});
    ("metric_file",
      {| ttype := File true; mandatory := true; argstr := Some "%s"; position := Some 2;
         name_template := None; name_source := None; keep_extension := false |});
    ("out_file",
      {| ttype := File false; mandatory := false; argstr := Some "%s"; position := Some 3;
         name_template := Some (String "%" (String "s" suffix));
         name_source := Some "metric_file"; keep_extension := false |});
    ("corrected_areas",
      {| ttype := File true; mandatory := false; argstr := Some "-corrected-areas %s";
         position := None;
         name_template := None; name_source := None; keep_extension := false |}) ].

Definition wrappers : list (CommandLine * string) :=
  [ (MetricFillHoles.MetricFillHoles, "_filled.shape.gii");
    (MetricRemoveIslands.MetricRemoveIslands, "_noislands.shape.gii") ].

(** The base name of a path: [split_filename]'s middle component. *)
Definition base_name (path : string) : string := (split_filename path).1.2.

(** The option of the command line for the corrected areas. *)
Definition corrected_areas_args (inputs : Inputs) : list string :=
  match inputs !! "corrected_areas" with
  | Some a => ["-corrected-areas " +:+ a]
  | None => []
  end.

(** The template of the command line as the specification words it:
    [cmd <surface> <metric-in> [-corrected-areas <area-metric>] <metric-out>]. *)
Definition spec_template (cmd surface metric_in : string) (areas : option string)
    (metric_out : string) : string :=
  String.concat " "
    ([cmd; surface; metric_in]
       ++ match areas with Some a => ["-corrected-areas"; a] | None => [] end
       ++ [metric_out])%list.

(** A mandatory file input that is undefined, or names no file. *)
Definition missing (raw : Inputs) (w : world) (name : string) : Prop :=
  match raw !! name with
  | Some p => files w !! p = None
  | None => True
  end.

End WB.

(** ** More test data *)

Module MoreExamples.
Import gifti nipype.

(** A world whose input file holds an image without data arrays. *)
Definition empty_image_world : world :=
  mk_world {["in.shape.gii" := GiftiFile (mk_image ∅ [] [] "1.0")]} [] Examples.pc.

(** A big-endian int32 array [-2, 0, 3] with a Units entry in its
    metadata and a reference to an external file, and a second, big-endian
    array. *)
Definition annotated : GiftiDataArray :=
  mk_darray (np.mk_ndarray [3%nat] (np.Int32 [-2; 0; 3])) 2005 8 3 1 None 1
    (<["Name" := "old"]> (<["Units" := "mm"]> ∅)) [3%nat] "ext.dat" 128.

Definition second : GiftiDataArray :=
  mk_darray (np.mk_ndarray [2%nat] (np.Int32 [7; 8])) 2005 8 3 1 None 1
    ∅ [2%nat] "" 0.

(** The world of a little-endian machine whose input file holds the two
    arrays. *)
Definition annotated_world : world :=
  mk_world {["in.shape.gii" := GiftiFile (mk_image ∅ [annotated; second] [] "1.0")]}
    [] Examples.pc.

(** The int32 example on a machine where the write raises. *)
Definition unwritable_world : world :=
  mk_world {["in.shape.gii" := GiftiFile (Examples.image_of Examples.ints 8)]}
    [] Examples.no_directory.

End MoreExamples.

(** ** Paths without directory part *)

Module Paths.

(** No [/] occurs in the string. *)
Fixpoint no_sep (s : string) : bool :=
  match s with
  | EmptyString => true
  | String c s' => negb (Ascii.eqb c "/") && no_sep s'
  end.

(** The extension of a path: [split_filename]'s last component. *)
Definition extension (path : string) : string := (nipype.split_filename path).2.

End Paths.

(** * Properties *)

Section MetricMathFacts.
Import gifti nipype Obs.

Lemma structures_lookup (h st : string) :
  MetricMath.structures !! h = Some st ->
  (h = "L" /\ st = "CortexLeft") \/ (h = "R" /\ st = "CortexRight").
Proof.
  unfold MetricMath.structures. intros H.
  apply lookup_insert_Some in H as [[<- <-] | [_ H]]; [by left |].
  apply lookup_insert_Some in H as [[<- <-] | [_ H]]; [by right |].
  by rewrite lookup_empty in H.
Qed.

Lemma structures_undefined : MetricMath.structures !! "<undefined>" = None.
Proof. by vm_compute. Qed.

(** [_run_interface] is [prepare] followed by the write. *)
Lemma run_interface_prepare cwd inputs w :
  MetricMath._run_interface cwd inputs w =
    match prepare cwd inputs w with
    | Ok (img', out) =>
        match to_filename img' out w with
        | (Ok _, w') => (Ok out, w')
        | (Raise e, w') => (Raise e, w')
        end
    | Raise e => (Raise e, w)
    end.
Proof.
  unfold MetricMath._run_interface, prepare, bind, lift, from_filename, ret.
  destruct (inputs !! "metric_file") as [p|]; [| reflexivity].
  destruct (files w !! p) as [[img|]|]; try reflexivity. simpl.
  destruct (dict_getitem _ _) as [st|]; [| reflexivity]. simpl.
  destruct (list_getitem _ _) as [d0|]; [| reflexivity]. simpl.
  destruct (MetricMath.apply_operation _ _) as [[data' dt']|]; [| reflexivity]. simpl.
  destruct (local _ _) as [a|]; [| reflexivity]. simpl.
  by destruct (to_filename _ _ w) as [[[]|e] w'].
Qed.

(** The image and the path that [prepare] gives, spelled out. *)
Lemma prepare_inv cwd inputs w img' out :
  prepare cwd inputs w = Ok (img', out) ->
  exists img d0 h st data' dt',
    input_image inputs w = Some img /\ darrays img !! 0%nat = Some d0 /\
    inputs !! "hemisphere" = Some h /\ MetricMath.structures !! h = Some st /\
    MetricMath.apply_operation (inputs !! "operation") d0 = Ok (Some data', dt') /\
    img' = mk_image (<["AnatomicalStructurePrimary" := st]> (img_meta img))
             (<[0%nat :=
                 GiftiDataArray_init data' (intent d0) dt' (encoding d0) (endian d0)
                   (coordsys d0) (ind_ord d0)
                   (<["Name" := default "sub-XYZ" (inputs !! "subject_id") +:+ "_" +:+ h
                                  +:+ "_" +:+ Py.str (inputs !! "metric")]> (meta d0))]>
                (darrays img))
             (labeltable img) (version img) /\
    out = Py.path_join cwd (Py.lower h +:+ "h." +:+ Py.str (inputs !! "metric")
                              +:+ ".native.shape.gii").
Proof.
  unfold prepare, input_image, from_filename, dict_getitem, list_getitem, local.
  destruct (inputs !! "metric_file") as [p|]; [| discriminate].
  destruct (files w !! p) as [[img|]|]; try discriminate. simpl.
  destruct (inputs !! "hemisphere") as [h|] eqn:Hh; simpl;
    [| rewrite structures_undefined; discriminate].
  destruct (MetricMath.structures !! h) as [st|] eqn:Hst; [| discriminate]. simpl.
  destruct (darrays img !! 0%nat) as [d0|] eqn:Hd; [| discriminate]. simpl.
  destruct (MetricMath.apply_operation (inputs !! "operation") d0)
    as [[[data'|] dt']|] eqn:Hop; try discriminate.
  simpl. intros [= <- <-].
  exists img, d0, h, st, data', dt'.
  repeat split; try done. by destruct (inputs !! "subject_id").
Qed.

(** A write that went through: the file reads as the image as written,
    and no process was spawned. *)
Lemma to_filename_ok img path w w' :
  to_filename img path w = (Ok tt, w') ->
  image_at w' path = Some (as_written (machine w) img) /\
  spawned w' = spawned w /\ machine w' = machine w.
Proof.
  unfold to_filename, image_at.
  destruct (write_outcome _ _ _ _) as [[e|] fs]; [discriminate |].
  intros [= <-]. simpl. by rewrite lookup_insert_eq.
Qed.

End MetricMathFacts.

(** ** Input validation *)

Section Validation.
Import nipype Obs.

Lemma validate_world name t v w :
  (validate name t v w).2 = w.
Proof.
  unfold validate. destruct (ttype t); simpl; try done.
  - by case_bool_decide.
  - by destruct (negb exists_ || path_exists v w)%bool.
Qed.

Lemma validate_error name t v w e w' :
  validate name t v w = (Raise e, w') -> e = TraitError.
Proof.
  unfold validate. destruct (ttype t); simpl.
  - discriminate.
  - case_bool_decide; simpl; unfold ret, raise; congruence.
  - destruct (negb exists_ || path_exists v w)%bool; congruence.
Qed.

(** Assignment never changes the world, and it only raises [TraitError]. *)
Lemma set_inputs_world spec raw w :
  (set_inputs spec raw w).2 = w.
Proof.
  induction spec as [| [name t] spec IH]; simpl; [done |].
  unfold bind.
  destruct (raw !! name) as [v|].
  - pose proof (validate_world name t v w) as Hw.
    destruct (validate name t v w) as [[[]|e] w1]; simpl in Hw; subst; [apply IH | done].
  - unfold ret. apply IH.
Qed.

Lemma set_inputs_error spec raw w e w' :
  set_inputs spec raw w = (Raise e, w') -> e = TraitError.
Proof.
  induction spec as [| [name t] spec IH]; simpl; [discriminate |].
  unfold bind.
  destruct (raw !! name) as [v|].
  - pose proof (validate_world name t v w) as Hw.
    destruct (validate name t v w) as [[[]|e1] w1] eqn:Hv; simpl in Hw; subst.
    + apply IH.
    + intros [= <- <-]. by apply validate_error in Hv.
  - unfold ret. apply IH.
Qed.

(** When the assignment succeeds, each defined input passed its trait. *)
Lemma set_inputs_ok spec raw w name t v :
  set_inputs spec raw w = (Ok tt, w) ->
  (name, t) ∈ spec -> raw !! name = Some v ->
  validate name t v w = (Ok tt, w).
Proof.
  induction spec as [| [name1 t1] spec IH]; simpl; intros Hs Hin Hv.
  - by apply elem_of_nil in Hin.
  - unfold bind in Hs.
    apply elem_of_cons in Hin as [[= <- <-] | Hin].
    + rewrite Hv in Hs.
      pose proof (validate_world name t v w) as Hw.
      destruct (validate name t v w) as [[[]|e1] w1]; simpl in Hw; subst; [done | discriminate].
    + destruct (raw !! name1) as [v1|].
      * pose proof (validate_world name1 t1 v1 w) as Hw.
        destruct (validate name1 t1 v1 w) as [[[]|e1] w1]; simpl in Hw; subst;
          [by apply IH | discriminate].
      * by apply IH.
Qed.

(** When a defined input fails its trait, the assignment fails. *)
Lemma set_inputs_rejects spec raw w name t v :
  (name, t) ∈ spec -> raw !! name = Some v ->
  validate name t v w = (Raise TraitError, w) ->
  set_inputs spec raw w = (Raise TraitError, w).
Proof.
  intros Hin Hv Hbad.
  pose proof (set_inputs_world spec raw w) as Hw.
  destruct (set_inputs spec raw w) as [[[]|e] w1] eqn:Hs; simpl in Hw; subst.
  - rewrite (set_inputs_ok _ _ _ _ _ _ Hs Hin Hv) in Hbad. discriminate.
  - by rewrite (set_inputs_error _ _ _ _ _ Hs).
Qed.

Lemma set_inputs_complete spec raw w :
  (forall name t v, (name, t) ∈ spec -> raw !! name = Some v ->
                    validate name t v w = (Ok tt, w)) ->
  set_inputs spec raw w = (Ok tt, w).
Proof.
  induction spec as [| [name t] spec IH]; simpl; intros H; [done |].
  unfold bind.
  destruct (raw !! name) as [v|] eqn:Hv.
  - rewrite (H name t v); [| by left | done].
    apply IH. intros; apply H; [by right | done].
  - unfold ret. apply IH. intros; apply H; [by right | done].
Qed.

Lemma check_mandatory_error spec inputs e :
  _check_mandatory_inputs spec inputs = Raise e -> e = ValueError.
Proof.
  induction spec as [| [name t] spec IH]; simpl; [discriminate |].
  destruct (mandatory t && negb (bool_decide (is_Some (inputs !! name))))%bool.
  - by intros [= <-].
  - apply IH.
Qed.

Lemma check_mandatory_ok spec inputs name t :
  _check_mandatory_inputs spec inputs = Ok tt ->
  (name, t) ∈ spec -> mandatory t = true -> is_Some (inputs !! name).
Proof.
  induction spec as [| [name1 t1] spec IH]; simpl; intros Hc Hin Hm.
  - by apply elem_of_nil in Hin.
  - destruct (mandatory t1 && negb (bool_decide (is_Some (inputs !! name1))))%bool eqn:Hb;
      [discriminate |].
    apply elem_of_cons in Hin as [[= <- <-] | Hin]; [| by apply IH].
    rewrite Hm in Hb. simpl in Hb. apply negb_false_iff in Hb.
    by apply bool_decide_eq_true in Hb.
Qed.

Lemma check_mandatory_missing spec inputs name t :
  (name, t) ∈ spec -> mandatory t = true -> inputs !! name = None ->
  _check_mandatory_inputs spec inputs = Raise ValueError.
Proof.
  intros Hin Hm Hnone.
  destruct (_check_mandatory_inputs spec inputs) as [[]|e] eqn:Hc.
  - destruct (check_mandatory_ok _ _ _ _ Hc Hin Hm) as [v Hv]. congruence.
  - by rewrite (check_mandatory_error _ _ _ Hc).
Qed.

Lemma check_mandatory_complete spec inputs :
  (forall name t, (name, t) ∈ spec -> mandatory t = true -> is_Some (inputs !! name)) ->
  _check_mandatory_inputs spec inputs = Ok tt.
Proof.
  induction spec as [| [name t] spec IH]; simpl; intros H; [done |].
  destruct (mandatory t) eqn:Hm; simpl.
  - rewrite bool_decide_eq_true_2; simpl.
    + apply IH. intros; eapply H; [by right | done].
    + eapply H; [by left | done].
  - apply IH. intros; eapply H; [by right | done].
Qed.

End Validation.

(** ** numpy's operations, element by element *)

Section Numpy.
Import Elementwise.

Lemma wrap_int32_opp x : np.in_int32 x -> np.wrap_int32 (- x) = int32_opp x.
Proof.
  unfold np.in_int32, np.wrap_int32, int32_opp. intros H.
  destruct (Z.eqb_spec x (-2147483648)) as [-> | Hne]; [reflexivity |].
  rewrite Z.mod_small; lia.
Qed.

Lemma wrap_int32_abs x : np.in_int32 x -> np.wrap_int32 (Z.abs x) = int32_abs x.
Proof.
  unfold np.in_int32, np.wrap_int32, int32_abs. intros H.
  destruct (Z.eqb_spec x (-2147483648)) as [-> | Hne]; [reflexivity |].
  rewrite Z.mod_small; lia.
Qed.

Lemma wrap_uint8_opp x : np.in_uint8 x -> np.wrap_uint8 (- x) = uint8_opp x.
Proof.
  unfold np.in_uint8, np.wrap_uint8, uint8_opp. intros H.
  destruct (Z.eqb_spec x 0) as [-> | Hne]; [reflexivity |].
  symmetry. apply (Z.mod_unique_pos _ _ (-1)); lia.
Qed.

Lemma wrap_uint8_abs x : np.in_uint8 x -> np.wrap_uint8 (Z.abs x) = x.
Proof.
  unfold np.in_uint8, np.wrap_uint8. intros H.
  rewrite Z.abs_eq by lia. apply Z.mod_small; lia.
Qed.

Lemma map_ext_Forall {A B} (P : A -> Prop) (f g : A -> B) (l : list A) :
  (forall x, P x -> f x = g x) -> Forall P l -> map f l = map g l.
Proof.
  intros Hfg. induction 1 as [| x l Hx _ IH]; simpl; [done |].
  by rewrite (Hfg x Hx), IH.
Qed.

Lemma negative_buffer_spec b :
  gifti_buffer b -> Ok <$> inverted b = Some (np.negative_buffer b).
Proof.
  destruct b as [l | l | l | l]; simpl; intros H; try done.
  - do 3 f_equal. eapply map_ext_Forall; [| exact H].
    intros x Hx. symmetry. by apply wrap_uint8_opp.
  - do 3 f_equal. eapply map_ext_Forall; [| exact H].
    intros x Hx. symmetry. by apply wrap_int32_opp.
Qed.

Lemma absolute_buffer_spec b :
  gifti_buffer b -> np.absolute_buffer b = Ok (absolute_values b).
Proof.
  destruct b as [l | l | l | l]; simpl; intros H; try done.
  - do 2 f_equal. rewrite <- (map_id l) at 2. eapply map_ext_Forall; [| exact H].
    intros x Hx. by apply wrap_uint8_abs.
  - do 2 f_equal. eapply map_ext_Forall; [| exact H].
    intros x Hx. by apply wrap_int32_abs.
Qed.

Lemma greater_zero_buffer_spec b :
  np.int_values (np.greater_zero_buffer b) = Some (positive_mask b).
Proof.
  destruct b as [l | l | l | l]; simpl; by rewrite ?map_map.
Qed.

End Numpy.

(** ** MetricMath: from the call to the write *)

Section MetricMathCall.
Import gifti nipype Obs.

(** The three branches of the operation chain, and nothing else, bind
    [data]. *)
Lemma apply_operation_inv op d0 data' dt' :
  MetricMath.apply_operation op d0 = Ok (Some data', dt') ->
  (op = Some "abs" /\ np.absolute (data d0) = Ok data' /\ dt' = datatype d0) \/
  (op = Some "invert" /\ np.negative (data d0) = Ok data' /\ dt' = datatype d0) \/
  (op = Some "bin" /\ data' = np.greater_zero (data d0) /\ dt' = NIFTI_TYPE_UINT8).
Proof.
  unfold MetricMath.apply_operation.
  repeat case_bool_decide; subst.
  - destruct (np.absolute (data d0)); simpl; intros [= <- <-]; auto.
  - destruct (np.negative (data d0)); simpl; intros [= <- <-]; auto 6.
  - intros [= <- <-]; auto 6.
  - discriminate.
Qed.

Lemma apply_operation_unrecognized op d0 :
  op ∉ [Some "invert"; Some "abs"; Some "bin"] ->
  MetricMath.apply_operation op d0 = Ok (None, datatype d0).
Proof.
  intros Hop. unfold MetricMath.apply_operation.
  repeat case_bool_decide; subst; try done; exfalso; apply Hop; set_solver.
Qed.

Lemma in_MetricMathInputSpec name t :
  (name, t) ∈ MetricMath.MetricMathInputSpec ->
  (name = "subject_id" /\ ttype t = Str /\ mandatory t = false) \/
  (name = "hemisphere" /\ ttype t = Enum ["L"; "R"]) \/
  (name = "metric" /\ ttype t = Str /\ mandatory t = false) \/
  (name = "metric_file" /\ ttype t = File true) \/
  (name = "operation" /\ ttype t = Enum ["invert"; "abs"; "bin"]).
Proof.
  unfold MetricMath.MetricMathInputSpec. intros H.
  repeat (apply elem_of_cons in H as [[= -> ->] | H]); simpl; auto 10.
  by apply elem_of_nil in H.
Qed.

Lemma input_image_Some inputs w img :
  input_image inputs w = Some img ->
  exists p, inputs !! "metric_file" = Some p /\ files w !! p = Some (GiftiFile img).
Proof.
  unfold input_image.
  destruct (inputs !! "metric_file") as [p|]; [| discriminate].
  destruct (files w !! p) as [[i|]|] eqn:Hf; try discriminate.
  intros [= ->]. eauto.
Qed.

(** A completed call went through [prepare] and the write. *)
Lemma call_inv cwd raw w out w' :
  MetricMath.call cwd raw w = (Ok out, w') ->
  exists img', prepare cwd raw w = Ok (img', out) /\
               to_filename img' out w = (Ok tt, w').
Proof.
  unfold MetricMath.call, MetricMath.run, bind, lift.
  pose proof (set_inputs_world MetricMath.MetricMathInputSpec raw w) as Hw.
  destruct (set_inputs _ raw w) as [[[]|e] w1]; simpl in Hw; subst; [| discriminate].
  destruct (_check_mandatory_inputs _ raw) as [[]|e]; [| discriminate].
  rewrite run_interface_prepare.
  destruct (prepare cwd raw w) as [[img' out']|e]; [| discriminate].
  destruct (to_filename img' out' w) as [[[]|e] w1] eqn:Hto; [| discriminate].
  intros [= <- <-]. eauto.
Qed.

(** Inputs that every trait accepts go straight to [_run_interface]. *)
Lemma call_valid cwd raw w img h op :
  input_image raw w = Some img ->
  raw !! "hemisphere" = Some h -> h ∈ ["L"; "R"] ->
  raw !! "operation" = Some op -> op ∈ ["invert"; "abs"; "bin"] ->
  MetricMath.call cwd raw w = MetricMath._run_interface cwd raw w.
Proof.
  intros Hi Hh Hhv Ho Hov. apply input_image_Some in Hi as (p & Hp & Hf).
  unfold MetricMath.call, MetricMath.run, bind, lift.
  rewrite set_inputs_complete.
  - rewrite check_mandatory_complete; [reflexivity |].
    intros nm t Hin Hm.
    apply in_MetricMathInputSpec in Hin
      as [(-> & _ & Hf') | [(-> & _) | [(-> & _ & Hf') | [(-> & _) | (-> & _)]]]];
      try congruence; eauto.
  - intros nm t v Hin Hv. unfold validate.
    apply in_MetricMathInputSpec in Hin
      as [(-> & -> & _) | [(-> & ->) | [(-> & -> & _) | [(-> & ->) | (-> & ->)]]]];
      try done.
    + rewrite Hh in Hv. injection Hv as <-. by rewrite bool_decide_eq_true_2.
    + simpl. unfold path_exists. rewrite Hp in Hv. injection Hv as <-.
      rewrite Hf. by rewrite bool_decide_eq_true_2 by eauto.
    + rewrite Ho in Hv. injection Hv as <-. by rewrite bool_decide_eq_true_2.
Qed.

(** An input that its trait rejects, or a mandatory input left undefined,
    stops the call with an input error. *)
Lemma call_input_error cwd raw w name t :
  (name, t) ∈ MetricMath.MetricMathInputSpec ->
  match raw !! name with
  | Some v => validate name t v w = (Raise TraitError, w)
  | None => mandatory t = true
  end ->
  fails_on_input (MetricMath.call cwd raw) w.
Proof.
  intros Hin Hbad. unfold fails_on_input, MetricMath.call, MetricMath.run, bind, lift.
  pose proof (set_inputs_world MetricMath.MetricMathInputSpec raw w) as Hw.
  destruct (set_inputs _ raw w) as [[[]|e] w1] eqn:Hs; simpl in Hw; subst.
  - destruct (raw !! name) as [v|] eqn:Hv.
    + rewrite (set_inputs_ok _ _ _ _ _ _ Hs Hin Hv) in Hbad. discriminate.
    + rewrite (check_mandatory_missing _ _ _ _ Hin Hbad Hv). by exists ValueError.
  - rewrite (set_inputs_error _ _ _ _ _ Hs). by exists TraitError.
Qed.

(** The shape of every completed invocation, spelled out once. *)
Lemma call_transforms cwd raw w out w' :
  MetricMath.call cwd raw w = (Ok out, w') ->
  exists img d0 img' d0' h st data' dt',
    transforms cwd raw w out w' img d0 img' d0' /\
    raw !! "hemisphere" = Some h /\ MetricMath.structures !! h = Some st /\
    MetricMath.apply_operation (raw !! "operation") d0 = Ok (Some data', dt') /\
    d0' = GiftiDataArray_init data' (intent d0) dt' (encoding d0) (endian d0)
            (coordsys d0) (ind_ord d0)
            (<["Name" := default "sub-XYZ" (raw !! "subject_id") +:+ "_" +:+ h +:+ "_"
                           +:+ Py.str (raw !! "metric")]> (meta d0)) /\
    img' = mk_image (<["AnatomicalStructurePrimary" := st]> (img_meta img))
             (<[0%nat := d0']> (darrays img)) (labeltable img) (version img) /\
    out = Py.path_join cwd (Py.lower h +:+ "h." +:+ Py.str (raw !! "metric")
                              +:+ ".native.shape.gii").
Proof.
  intros Hc. destruct (call_inv _ _ _ _ _ Hc) as (img' & Hp & Hto).
  destruct (prepare_inv _ _ _ _ _ Hp)
    as (img & d0 & h & st & data' & dt' & Hi & Hd & Hh & Hst & Hop & Himg' & Hout).
  exists img, d0, img'. eexists. exists h, st, data', dt'.
  split; [| repeat split; try done; exact Himg'].
  unfold transforms. repeat split; try done.
  rewrite Himg'. simpl. apply list_lookup_insert_eq. by eapply lookup_lt_Some.
Qed.

End MetricMathCall.

(** * The claims on MetricMath *)

Section MetricMathClaims.
Import gifti nipype Obs Elementwise Examples.

(** What the file at the returned path reads as, once the call has
    completed: the image handed to the writer, as the platform writes it. *)
Lemma transforms_written cwd raw w out w' img d0 img' d0' :
  transforms cwd raw w out w' img d0 img' d0' ->
  image_at w' out = Some (as_written (machine w) img') /\
  first_darray (image_at w' out) = Some (darray_as_written (machine w) d0') /\
  spawned w' = spawned w.
Proof.
  intros (_ & _ & _ & Hd' & Hto).
  destruct (to_filename_ok _ _ _ _ Hto) as (Hi & Hs & _).
  rewrite Hi. repeat split; try done.
  simpl. by rewrite list_lookup_fmap, Hd'.
Qed.

(** C5: in every completed invocation the hemisphere is L or R, and the
    image's AnatomicalStructurePrimary metadata field is CortexLeft for L
    and CortexRight for R, in the image handed to the writer and in the file
    written; no other value of the field is ever produced. *)
Theorem C5_anatomical_structure cwd raw w out w' :
  MetricMath.call cwd raw w = (Ok out, w') ->
  exists img d0 img' d0' written,
    transforms cwd raw w out w' img d0 img' d0' /\
    image_at w' out = Some written /\
    img_meta written !! "AnatomicalStructurePrimary"
      = img_meta img' !! "AnatomicalStructurePrimary" /\
    (raw !! "hemisphere" = Some "L" ->
     img_meta img' !! "AnatomicalStructurePrimary" = Some "CortexLeft") /\
    (raw !! "hemisphere" = Some "R" ->
     img_meta img' !! "AnatomicalStructurePrimary" = Some "CortexRight") /\
    ((raw !! "hemisphere" = Some "L" /\
      img_meta img' !! "AnatomicalStructurePrimary" = Some "CortexLeft") \/
     (raw !! "hemisphere" = Some "R" /\
      img_meta img' !! "AnatomicalStructurePrimary" = Some "CortexRight")).
Proof.
  intros Hc.
  destruct (call_transforms _ _ _ _ _ Hc)
    as (img & d0 & img' & d0' & h & st & data' & dt' & HT & Hh & Hst & _ & _ & Himg' & _).
  destruct (transforms_written _ _ _ _ _ _ _ _ _ HT) as (Hw & _).
  exists img, d0, img', d0', (as_written (machine w) img').
  split; [exact HT |]. split; [exact Hw |]. split; [reflexivity |].
  rewrite Himg'. simpl. rewrite lookup_insert_eq, Hh.
  apply structures_lookup in Hst as [[-> ->] | [-> ->]];
    repeat split; try discriminate; auto.
Qed.

(** C6: in every completed invocation the first data array's map name is
    <subject>_<hemisphere>_<metric>, the subject defaulting to sub-XYZ when
    it is omitted, in the array handed to the writer and in the file
    written; with hemisphere L and metric thickness and no subject the name
    is sub-XYZ_L_thickness. *)
Theorem C6_map_name cwd raw w out w' :
  MetricMath.call cwd raw w = (Ok out, w') ->
  exists img d0 img' d0' written,
    transforms cwd raw w out w' img d0 img' d0' /\
    first_darray (image_at w' out) = Some written /\
    meta written !! "Name" = meta d0' !! "Name" /\
    meta d0' !! "Name" =
      Some (default "sub-XYZ" (raw !! "subject_id") +:+ "_"
              +:+ Py.str (raw !! "hemisphere") +:+ "_" +:+ Py.str (raw !! "metric")) /\
    (raw !! "subject_id" = None -> raw !! "hemisphere" = Some "L" ->
     raw !! "metric" = Some "thickness" ->
     meta d0' !! "Name" = Some "sub-XYZ_L_thickness").
Proof.
  intros Hc.
  destruct (call_transforms _ _ _ _ _ Hc)
    as (img & d0 & img' & d0' & h & st & data' & dt' & HT & Hh & _ & _ & Hd0' & _).
  destruct (transforms_written _ _ _ _ _ _ _ _ _ HT) as (_ & Hw & _).
  exists img, d0, img', d0', (darray_as_written (machine w) d0').
  split; [exact HT |]. split; [exact Hw |]. split; [reflexivity |].
  rewrite Hd0'. simpl. rewrite lookup_insert_eq, Hh. simpl. split; [done |].
  intros -> [= ->] ->. reflexivity.
Qed.

Lemma path_join_relative cwd c name :
  c <> "/"%char ->
  Py.path_join cwd (String c name) =
    if (String.eqb cwd "" || Py.endswith_sep cwd)%bool
    then cwd +:+ String c name else cwd +:+ "/" +:+ String c name.
Proof.
  intros Hc. unfold Py.path_join.
  change (Py.startswith (String c name) "/")
    with (Ascii.eqb "/" c && Py.startswith name "")%bool.
  assert (Ascii.eqb "/" c = false) as -> by (apply Ascii.eqb_neq; congruence).
  reflexivity.
Qed.

(** C7: the path that a completed invocation returns, and at which it
    wrote, is the working directory joined with
    <hemisphere in lower case>h.<metric>.native.shape.gii; it is a function
    of the working directory, the hemisphere and the metric alone. *)
Theorem C7_output_path cwd raw w out w' :
  MetricMath.call cwd raw w = (Ok out, w') ->
  exists name,
    is_Some (files w' !! out) /\
    name = Py.lower (Py.str (raw !! "hemisphere")) +:+ "h."
             +:+ Py.str (raw !! "metric") +:+ ".native.shape.gii" /\
    out = Py.path_join cwd name /\
    out = (if (String.eqb cwd "" || Py.endswith_sep cwd)%bool
           then cwd +:+ name else cwd +:+ "/" +:+ name) /\
    (raw !! "hemisphere" = Some "L" -> raw !! "metric" = Some "thickness" ->
     name = "lh.thickness.native.shape.gii") /\
    (forall raw2 w2 out2 w2',
       raw2 !! "hemisphere" = raw !! "hemisphere" ->
       raw2 !! "metric" = raw !! "metric" ->
       MetricMath.call cwd raw2 w2 = (Ok out2, w2') -> out2 = out).
Proof.
  intros Hc.
  destruct (call_transforms _ _ _ _ _ Hc)
    as (img & d0 & img' & d0' & h & st & data' & dt' & HT & Hh & Hst & _ & _ & _ & Ho).
  destruct (transforms_written _ _ _ _ _ _ _ _ _ HT) as (Hw & _).
  eexists. rewrite Hh. simpl.
  split.
  { unfold image_at in Hw. destruct (files w' !! out); [eauto | discriminate]. }
  split; [reflexivity |]. split; [exact Ho |].
  split.
  { rewrite Ho. apply structures_lookup in Hst as [[-> _] | [-> _]];
      by apply path_join_relative. }
  split.
  { intros [= ->] ->. reflexivity. }
  intros raw2 w2 out2 w2' Hh2 Hm2 Hc2.
  destruct (call_transforms _ _ _ _ _ Hc2)
    as (_ & _ & _ & _ & h2 & _ & _ & _ & _ & Hh2' & _ & _ & _ & _ & Ho2).
  rewrite Ho, Ho2, Hm2. congruence.
Qed.


(** C9, as amended: in every completed invocation the replacement data
    array that MetricMath hands to the writer has the intent, encoding,
    endianness, coordinate system and index ordering of the array it
    replaces, under every operation; invert and abs keep the datatype too,
    and bin sets it to uint8.  The map name in its metadata is set, its
    other metadata entries are kept, and its external file name and offset
    are the empty defaults.  The array in the file written has the same
    attributes, except the endianness, which is the byte order of the
    machine, and the transform of the coordinate system, which is as the
    writer renders it. *)
Theorem C9_darray_attributes cwd raw w out w' :
  MetricMath.call cwd raw w = (Ok out, w') ->
  exists img d0 img' d0' written,
    transforms cwd raw w out w' img d0 img' d0' /\
    intent d0' = intent d0 /\ encoding d0' = encoding d0 /\
    endian d0' = endian d0 /\ coordsys d0' = coordsys d0 /\
    ind_ord d0' = ind_ord d0 /\
    (raw !! "operation" = Some "invert" \/ raw !! "operation" = Some "abs" ->
     datatype d0' = datatype d0) /\
    (raw !! "operation" = Some "bin" -> datatype d0' = NIFTI_TYPE_UINT8) /\
    (forall key, key <> "Name" -> meta d0' !! key = meta d0 !! key) /\
    is_Some (meta d0' !! "Name") /\
    ext_fname d0' = "" /\ ext_offset d0' = 0 /\
    first_darray (image_at w' out) = Some written /\
    intent written = intent d0 /\ encoding written = encoding d0 /\
    coordsys written = coordsys_as_written (machine w) <$> coordsys d0 /\
    ind_ord written = ind_ord d0 /\
    datatype written = datatype d0' /\ meta written = meta d0' /\
    endian written = byteorder (machine w).
Proof.
  intros Hc.
  destruct (call_transforms _ _ _ _ _ Hc)
    as (img & d0 & img' & d0' & h & st & data' & dt' & HT & _ & _ & Hop & Hd0' & _).
  destruct (transforms_written _ _ _ _ _ _ _ _ _ HT) as (_ & Hw & _).
  exists img, d0, img', d0', (darray_as_written (machine w) d0').
  split; [exact HT |]. rewrite Hd0' in *. simpl.
  repeat (split; [reflexivity |]).
  assert ((raw !! "operation" = Some "invert" \/ raw !! "operation" = Some "abs" ->
           dt' = datatype d0) /\
          (raw !! "operation" = Some "bin" -> dt' = NIFTI_TYPE_UINT8)) as [H1 H2].
  { apply apply_operation_inv in Hop as [(Ho & _ & ->) | [(Ho & _ & ->) | (Ho & _ & ->)]];
      rewrite Ho; split; try done; intros [? | ?]; congruence. }
  split; [exact H1 |]. split; [exact H2 |].
  split; [intros key Hk; by rewrite lookup_insert_ne |].
  split; [rewrite lookup_insert_eq; eauto |].
  by repeat split.
Qed.


(** C1, as amended: on the array [-2, 0, 3] the array that MetricMath
    hands to the writer holds [2, 0, -3] under invert, [2, 0, 3] under abs
    and [0, 0, 1] with datatype uint8 under bin.  In every completed
    invocation each operation acts element by element in the element type
    of the array: invert negates a float32 exactly, negates an int32 other
    than -2^31 (which it leaves as it is) and takes the opposite modulo 256
    of a uint8; abs takes the absolute value of a float32 and of an int32
    other than -2^31 (which it leaves as it is) and leaves a uint8 as it is;
    bin gives 1 for an element greater than zero and 0 for any other, and
    sets the datatype to uint8.  The file holds these values as the writer
    renders them. *)
Theorem C1_array_transform :
  (Obs.values (transformed "invert" ints NIFTI_TYPE_INT32) = Some [2; 0; -3] /\
   Obs.values (transformed "abs" ints NIFTI_TYPE_INT32) = Some [2; 0; 3] /\
   Obs.values (transformed "bin" ints NIFTI_TYPE_INT32) = Some [0; 0; 1] /\
   datatype <$> transformed "bin" ints NIFTI_TYPE_INT32 = Some NIFTI_TYPE_UINT8) /\
  (Obs.elements (transformed "invert" floats NIFTI_TYPE_FLOAT32) =
     Some (np.Float32 [S754_finite false 8388608 (-22); S754_zero true;
                       S754_finite true 12582912 (-22)]) /\
   Obs.elements (transformed "abs" floats NIFTI_TYPE_FLOAT32) =
     Some (np.Float32 [S754_finite false 8388608 (-22); S754_zero false;
                       S754_finite false 12582912 (-22)]) /\
   Obs.values (transformed "bin" floats NIFTI_TYPE_FLOAT32) = Some [0; 0; 1] /\
   datatype <$> transformed "bin" floats NIFTI_TYPE_FLOAT32 = Some NIFTI_TYPE_UINT8) /\
  forall cwd raw w out w',
    MetricMath.call cwd raw w = (Ok out, w') ->
    exists img d0 img' d0' written,
      transforms cwd raw w out w' img d0 img' d0' /\
      np.shape (data d0') = np.shape (data d0) /\
      (raw !! "operation" = Some "invert" -> gifti_buffer (np.elems (data d0)) ->
       Some (np.elems (data d0')) = inverted (np.elems (data d0))) /\
      (raw !! "operation" = Some "abs" -> gifti_buffer (np.elems (data d0)) ->
       np.elems (data d0') = absolute_values (np.elems (data d0))) /\
      (raw !! "operation" = Some "bin" ->
       np.int_values (np.elems (data d0')) = Some (positive_mask (np.elems (data d0))) /\
       datatype d0' = NIFTI_TYPE_UINT8) /\
      first_darray (image_at w' out) = Some written /\
      data written = reread (machine w) d0' /\ datatype written = datatype d0'.
Proof.
  split; [by vm_compute |]. split; [by vm_compute |].
  intros cwd raw w out w' Hc.
  destruct (call_transforms _ _ _ _ _ Hc)
    as (img & d0 & img' & d0' & h & st & data' & dt' & HT & _ & _ & Hop & Hd0' & _).
  destruct (transforms_written _ _ _ _ _ _ _ _ _ HT) as (_ & Hw & _).
  exists img, d0, img', d0', (darray_as_written (machine w) d0').
  split; [exact HT |].
  enough (np.shape (data d0') = np.shape (data d0) /\
          (raw !! "operation" = Some "invert" -> gifti_buffer (np.elems (data d0)) ->
           Some (np.elems (data d0')) = inverted (np.elems (data d0))) /\
          (raw !! "operation" = Some "abs" -> gifti_buffer (np.elems (data d0)) ->
           np.elems (data d0') = absolute_values (np.elems (data d0))) /\
          (raw !! "operation" = Some "bin" ->
           np.int_values (np.elems (data d0')) = Some (positive_mask (np.elems (data d0))) /\
           datatype d0' = NIFTI_TYPE_UINT8)) as (H1 & H2 & H3 & H4)
    by (repeat split; try tauto; auto).
  rewrite Hd0'. simpl.
  apply apply_operation_inv in Hop as [(Ho & Hd & ->) | [(Ho & Hd & ->) | (Ho & -> & ->)]];
    rewrite Ho.
  - unfold np.absolute in Hd.
    destruct (np.absolute_buffer (np.elems (data d0))) as [b'|] eqn:Hb; [| discriminate].
    injection Hd as <-. simpl.
    repeat split; try discriminate.
    intros _ Hg. rewrite (absolute_buffer_spec _ Hg) in Hb. congruence.
  - unfold np.negative in Hd.
    destruct (np.negative_buffer (np.elems (data d0))) as [b'|] eqn:Hb; [| discriminate].
    injection Hd as <-. simpl.
    repeat split; try discriminate.
    intros _ Hg. pose proof (negative_buffer_spec _ Hg) as Hn. rewrite Hb in Hn.
    destruct (inverted (np.elems (data d0))); simpl in Hn; congruence.
  - simpl. repeat split; try discriminate.
    apply greater_zero_buffer_spec.
Qed.

(** C2: an operation that is not invert, abs or bin (or is left
    undefined) never goes through: the interface rejects it on input, and
    [run] and [_run_interface] called on such inputs raise as well, in each
    case leaving the files as they were; in [_run_interface] with all other
    inputs in order, the error is the unbound local [data]. *)
Theorem C2_unrecognized_operation cwd raw w :
  raw !! "operation" ∉ [Some "invert"; Some "abs"; Some "bin"] ->
  fails_on_input (MetricMath.call cwd raw) w /\
  fails_cleanly (MetricMath.run cwd raw) w /\
  fails_cleanly (MetricMath._run_interface cwd raw) w /\
  (forall img d0 h,
     input_image raw w = Some img -> darrays img !! 0%nat = Some d0 ->
     raw !! "hemisphere" = Some h -> h ∈ ["L"; "R"] ->
     MetricMath._run_interface cwd raw w = (Raise (UnboundLocalError "data"), w)).
Proof.
  intros Hop.
  assert (fails_cleanly (MetricMath._run_interface cwd raw) w) as Hri.
  { unfold fails_cleanly. rewrite run_interface_prepare.
    destruct (prepare cwd raw w) as [[img' out]|e] eqn:E; [| by exists e].
    destruct (prepare_inv _ _ _ _ _ E) as (img & d0 & h & st & data' & dt' & _ & _ & _ & _ & Ha & _).
    rewrite apply_operation_unrecognized in Ha by done. discriminate. }
  repeat split.
  - apply (call_input_error cwd raw w "operation"
             (mk_trait (Enum ["invert"; "abs"; "bin"]) true None None None None false)).
    { unfold MetricMath.MetricMathInputSpec. do 4 apply list_elem_of_further.
      apply list_elem_of_here. }
    destruct (raw !! "operation") as [op|] eqn:Ho; [| done].
    unfold validate. simpl. rewrite bool_decide_eq_false_2; [done |].
    intros Hin. apply Hop.
    repeat (apply elem_of_cons in Hin as [-> | Hin]);
      [| | | by apply elem_of_nil in Hin].
    + apply list_elem_of_here.
    + apply list_elem_of_further, list_elem_of_here.
    + do 2 apply list_elem_of_further. apply list_elem_of_here.
  - unfold fails_cleanly, MetricMath.run, bind, lift.
    destruct (_check_mandatory_inputs _ raw) as [[]|e]; [exact Hri | by exists e].
  - exact Hri.
  - intros img d0 h Hi Hd Hh Hhv.
    apply input_image_Some in Hi as (p & Hp & Hf).
    unfold MetricMath._run_interface, bind, lift, from_filename, dict_getitem, list_getitem.
    rewrite Hp, Hf, Hh. simpl.
    assert (exists st, MetricMath.structures !! h = Some st) as [st ->].
    { repeat (apply elem_of_cons in Hhv as [-> | Hhv]); [| | by apply elem_of_nil in Hhv];
        eexists; by vm_compute. }
    rewrite Hd. by rewrite apply_operation_unrecognized.
Qed.

End MetricMathClaims.

(** * The claims on the workbench wrappers *)

Section CommandLineFacts.
Import nipype WB Obs Paths.

Lemma wrappers_spec c suffix :
  (c, suffix) ∈ wrappers ->
  exists cmd, c = mk_command cmd (wb_metric_spec suffix) /\ Py.plain suffix = true.
Proof.
  unfold wrappers. intros H.
  repeat (apply elem_of_cons in H as [[= -> ->] | H]); [| | by apply elem_of_nil in H];
    eexists; split; reflexivity.
Qed.

Lemma string_app_nil (s : string) : s +:+ "" = s.
Proof.
  induction s as [| c s IH]; [done |].
  change (String c (s +:+ "") = String c s). by rewrite IH.
Qed.

(** *** The % operator *)

Lemma percent_tail_cons c s :
  c <> "%"%char ->
  Py.percent_tail (String c s) =
    match Py.percent_tail s with
    | Ok r => Ok (String c r)
    | Raise e => Raise e
    end.
Proof.
  intros Hc. destruct c as [[] [] [] [] [] [] [] []]; try reflexivity. by destruct Hc.
Qed.

(** After the conversion, text without [%] is copied. *)
Lemma percent_tail_plain s : Py.plain s = true -> Py.percent_tail s = Ok s.
Proof.
  induction s as [| c s IH]; [done |]. cbn [Py.plain].
  destruct (Ascii.eqb_spec c "%") as [-> | Hc]; [discriminate |].
  cbn [negb andb]. intros Hs. by rewrite percent_tail_cons, IH.
Qed.

(** A template that starts with [%s] and goes on without [%]. *)
Lemma percent_s_prefix rest v :
  Py.plain rest = true -> Py.percent (String "%" (String "s" rest)) v = Ok (v +:+ rest).
Proof.
  intros Hp.
  change (match Py.percent_tail rest with
          | Ok r => Ok (v +:+ r)
          | Raise e => Raise e
          end = Ok (v +:+ rest)).
  by rewrite percent_tail_plain.
Qed.

Lemma percent_s v : Py.percent "%s" v = Ok v.
Proof. change (Ok (v +:+ "") = Ok v). by rewrite string_app_nil. Qed.

Lemma percent_flag v :
  Py.percent "-corrected-areas %s" v = Ok ("-corrected-areas " +:+ v).
Proof.
  change (Ok ("-corrected-areas " +:+ (v +:+ "")) = Ok ("-corrected-areas " +:+ v)).
  by rewrite string_app_nil.
Qed.

Local Arguments split_filename : simpl never.

(** *** The output name and the arguments *)

Lemma out_file_trait suffix :
  trait_of (wb_metric_spec suffix) "out_file" =
    Some {| ttype := File false; mandatory := false; argstr := Some "%s";
            position := Some 3;
            name_template := Some (String "%" (String "s" suffix));
            name_source := Some "metric_file"; keep_extension := false |}.
Proof. reflexivity. Qed.

(** The output name: the template filled with the base name of the
    metric file. *)
Lemma out_file_from_source suffix inputs m n :
  Py.plain suffix = true ->
  inputs !! "metric_file" = Some m -> inputs !! "out_file" = None ->
  _filename_from_source (S n) (wb_metric_spec suffix) inputs "out_file" [] =
    Ok (Some (base_name m +:+ suffix)).
Proof.
  intros Hp Hm Ho. unfold base_name.
  cbn [_filename_from_source].
  rewrite out_file_trait, Ho. rewrite bool_decide_eq_true_2 by done.
  cbn [orb name_source name_template keep_extension]. rewrite Hm.
  destruct (split_filename m) as [[pth base] ext].
  cbn [result_bind fst snd].
  rewrite (percent_s_prefix suffix base Hp).
  cbn [result_bind andb].
  by destruct (split_filename (base +:+ suffix)) as [[? ?] ?].
Qed.

(** An output name given without [%s] is the output name. *)
Lemma out_file_verbatim suffix inputs o n :
  inputs !! "out_file" = Some o -> has_conversion o = false ->
  _filename_from_source (S n) (wb_metric_spec suffix) inputs "out_file" [] = Ok (Some o).
Proof.
  intros Ho Hconv. cbn [_filename_from_source].
  rewrite out_file_trait, Ho. rewrite bool_decide_eq_false_2 by done.
  change (default "" (Some o)) with o. by rewrite Hconv.
Qed.

(** An output name that starts with [%s] and goes on without [%] is used
    as the template. *)
Lemma out_file_template suffix inputs m rest n :
  Py.plain rest = true ->
  inputs !! "metric_file" = Some m ->
  inputs !! "out_file" = Some (String "%" (String "s" rest)) ->
  _filename_from_source (S n) (wb_metric_spec suffix) inputs "out_file" []
    = Ok (Some (base_name m +:+ rest)).
Proof.
  intros Hp Hm Ho. unfold base_name. cbn [_filename_from_source].
  rewrite out_file_trait, Ho. rewrite bool_decide_eq_false_2 by done.
  change (default "" (Some (String "%" (String "s" rest))))
    with (String "%" (String "s" rest)).
  cbn [has_conversion orb name_source name_template keep_extension]. rewrite Hm.
  destruct (split_filename m) as [[pth base] ext].
  cbn [result_bind fst snd].
  rewrite (percent_s_prefix rest base Hp).
  cbn [result_bind andb].
  by destruct (split_filename (base +:+ rest)) as [[? ?] ?].
Qed.

(** The arguments: surface, metric and output by position, then the
    option, which has no position. *)
Lemma wb_parse_inputs_out cmd suffix inputs s m out :
  inputs !! "surface_file" = Some s -> inputs !! "metric_file" = Some m ->
  (forall n, _filename_from_source (S n) (wb_metric_spec suffix) inputs "out_file" []
             = Ok (Some out)) ->
  _parse_inputs (mk_command cmd (wb_metric_spec suffix)) inputs =
    Ok ([s; m; out] ++ corrected_areas_args inputs)%list.
Proof.
  intros Hs Hm Hout. unfold _parse_inputs, corrected_areas_args.
  cbn [input_spec].
  let t := eval vm_compute in (sorted_argstr_traits (wb_metric_spec suffix)) in
  change (sorted_argstr_traits (wb_metric_spec suffix)) with t.
  cbn [parse_loop name_source position argstr].
  rewrite Hout, Hs, Hm.
  destruct (inputs !! "corrected_areas") as [a|];
    cbn [result_bind default]; rewrite ?percent_flag, !percent_s; reflexivity.
Qed.

Lemma wb_parse_inputs cmd suffix inputs s m :
  Py.plain suffix = true ->
  inputs !! "surface_file" = Some s -> inputs !! "metric_file" = Some m ->
  inputs !! "out_file" = None ->
  _parse_inputs (mk_command cmd (wb_metric_spec suffix)) inputs =
    Ok ([s; m; base_name m +:+ suffix] ++ corrected_areas_args inputs)%list.
Proof.
  intros Hp Hs Hm Ho. apply wb_parse_inputs_out; [done | done |].
  intros n. by apply out_file_from_source.
Qed.

Lemma wb_mandatory cmd suffix inputs s m :
  inputs !! "surface_file" = Some s -> inputs !! "metric_file" = Some m ->
  _check_mandatory_inputs (input_spec (mk_command cmd (wb_metric_spec suffix))) inputs
    = Ok tt.
Proof.
  intros Hs Hm. apply check_mandatory_complete. intros name t Hin Hmand.
  cbn [input_spec] in Hin. unfold wb_metric_spec in Hin.
  repeat (apply elem_of_cons in Hin as [[= -> ->] | Hin]); try discriminate; eauto.
  by apply elem_of_nil in Hin.
Qed.

Lemma wb_cmdline_out cmd suffix inputs s m out :
  inputs !! "surface_file" = Some s -> inputs !! "metric_file" = Some m ->
  (forall n, _filename_from_source (S n) (wb_metric_spec suffix) inputs "out_file" []
             = Ok (Some out)) ->
  cmdline (mk_command cmd (wb_metric_spec suffix)) inputs =
    Ok (String.concat " " ([cmd; s; m; out] ++ corrected_areas_args inputs)%list).
Proof.
  intros Hs Hm Hout. unfold cmdline.
  rewrite (wb_parse_inputs_out cmd suffix inputs s m out Hs Hm Hout).
  by rewrite (wb_mandatory cmd suffix inputs s m Hs Hm).
Qed.

Lemma wb_cmdline cmd suffix inputs s m :
  Py.plain suffix = true ->
  inputs !! "surface_file" = Some s -> inputs !! "metric_file" = Some m ->
  inputs !! "out_file" = None ->
  cmdline (mk_command cmd (wb_metric_spec suffix)) inputs =
    Ok (String.concat " "
          ([cmd; s; m; base_name m +:+ suffix] ++ corrected_areas_args inputs)%list).
Proof.
  intros Hp Hs Hm Ho. apply wb_cmdline_out; [done | done |].
  intros n. by apply out_file_from_source.
Qed.

(** *** Strings *)

Lemma string_app_assoc (a b c : string) : (a +:+ b) +:+ c = a +:+ (b +:+ c).
Proof.
  induction a as [| x a IH]; [done |].
  change (String x ((a +:+ b) +:+ c) = String x (a +:+ (b +:+ c))). by rewrite IH.
Qed.

Lemma string_length_app (s t : string) :
  String.length (s +:+ t) = (String.length s + String.length t)%nat.
Proof.
  induction s as [| c s IH]; [done |].
  change (S (String.length (s +:+ t)) = S (String.length s + String.length t)).
  by rewrite IH.
Qed.


(** *** The base name and the extension make up the file name *)

Lemma rsplit_dot_app s root ext :
  rsplit_dot s = Some (root, ext) -> s = root +:+ ext.
Proof.
  revert root. induction s as [| c s IH]; intros root; simpl; [discriminate |].
  destruct (rsplit_dot s) as [[r e]|].
  - intros [= <- <-]. change (String c s = String c (r +:+ e)). by rewrite (IH r).
  - destruct (Ascii.eqb c "."); [| discriminate]. by intros [= <- <-].
Qed.

Lemma splitext_app p : (splitext p).1 +:+ (splitext p).2 = p.
Proof.
  unfold splitext. destruct (rsplit_dot p) as [[root ext]|] eqn:E.
  - destruct (all_chars "." root); simpl.
    + apply string_app_nil.
    + symmetry. by apply rsplit_dot_app.
  - apply string_app_nil.
Qed.

Lemma substring_0_length f : substring 0 (String.length f) f = f.
Proof. induction f as [| c f IH]; simpl; [done | by rewrite IH]. Qed.

Lemma substring_split f a :
  (a <= String.length f)%nat ->
  substring 0 a f +:+ substring a (String.length f - a) f = f.
Proof.
  revert f. induction a as [| a IH]; intros f Ha.
  - rewrite Nat.sub_0_r, substring_0_length. by destruct f.
  - destruct f as [| c f]; simpl in *; [lia |].
    change (String c (substring 0 a f +:+ substring a (String.length f - a) f)
            = String c f).
    rewrite IH; [done | lia].
Qed.

Lemma split_special_app fname exts b e :
  split_special fname exts = Some (b, e) -> b +:+ e = fname.
Proof.
  revert b e. induction exts as [| x exts IH]; intros b e; simpl; [discriminate |].
  destruct (String.length x <? String.length fname)%nat eqn:Hlt; simpl; [| apply IH].
  destruct (String.eqb _ _); [| apply IH].
  intros [= <- <-]. apply Nat.ltb_lt in Hlt.
  pose proof (substring_split fname (String.length fname - String.length x)) as H.
  replace (String.length fname - (String.length fname - String.length x))%nat
    with (String.length x) in H by lia.
  apply H. lia.
Qed.

Lemma split_filename_basename path :
  let '(_, base, ext) := split_filename path in base +:+ ext = basename path.
Proof.
  unfold split_filename.
  destruct (split_special (basename path) special_extensions) as [[b e]|] eqn:E.
  - by apply split_special_app in E.
  - pose proof (splitext_app (basename path)) as H.
    by destruct (splitext (basename path)).
Qed.

Lemma base_name_basename path :
  exists ext, base_name path +:+ ext = basename path.
Proof.
  pose proof (split_filename_basename path) as H. unfold base_name.
  destruct (split_filename path) as [[pth base] ext]. by exists ext.
Qed.

(** *** The directory part *)

Lemma no_sep_app s t : no_sep (s +:+ t) = (no_sep s && no_sep t)%bool.
Proof.
  induction s as [| c s IH]; [done |].
  change (no_sep (String c (s +:+ t)) = (no_sep (String c s) && no_sep t)%bool).
  cbn [no_sep]. rewrite IH. by rewrite andb_assoc.
Qed.

Lemma basename_from_no_sep rest pre :
  no_sep pre = true -> no_sep (basename_from rest (pre +:+ rest)) = true.
Proof.
  revert pre. induction rest as [| c rest IH]; intros pre Hpre; cbn [basename_from].
  - by rewrite string_app_nil.
  - destruct (Ascii.eqb c "/") eqn:Hc.
    + apply (IH ""). reflexivity.
    + replace (pre +:+ String c rest) with ((pre +:+ String c "") +:+ rest)
        by (by rewrite string_app_assoc).
      apply IH. rewrite no_sep_app, Hpre. cbn [no_sep]. by rewrite Hc.
Qed.

Lemma basename_no_sep p : no_sep (basename p) = true.
Proof. apply (basename_from_no_sep p ""). reflexivity. Qed.

Lemma basename_from_id f cur : no_sep f = true -> basename_from f cur = cur.
Proof.
  revert cur. induction f as [| c f IH]; intros cur; cbn [basename_from no_sep]; [done |].
  destruct (Ascii.eqb c "/"); [discriminate |]. simpl. apply IH.
Qed.

Lemma basename_id f : no_sep f = true -> basename f = f.
Proof. apply basename_from_id. Qed.

Lemma basename_from_dir d f cur :
  no_sep f = true -> basename_from (d +:+ "/" +:+ f) cur = f.
Proof.
  intros Hf. revert cur. induction d as [| c d IH]; intros cur.
  - change (basename_from f f = f). by apply basename_from_id.
  - change (basename_from (String c (d +:+ "/" +:+ f)) cur = f). cbn [basename_from].
    destruct (Ascii.eqb c "/"); apply IH.
Qed.

Lemma basename_dir d f : no_sep f = true -> basename (d +:+ "/" +:+ f) = f.
Proof. apply basename_from_dir. Qed.

(** The base name and the extension are those of the last component. *)
Lemma base_name_of_basename p : base_name p = base_name (basename p).
Proof.
  unfold base_name, split_filename.
  rewrite (basename_id (basename p)) by apply basename_no_sep.
  destruct (split_special (basename p) special_extensions) as [[b e]|]; [done |].
  by destruct (splitext (basename p)).
Qed.

Lemma base_name_no_sep p : no_sep (base_name p) = true.
Proof.
  destruct (base_name_basename p) as [ext H].
  pose proof (basename_no_sep p) as Hn. rewrite <- H, no_sep_app in Hn.
  by apply andb_true_iff in Hn as [Hn _].
Qed.

(** *** Names that end in .gii *)

Lemma last_char_app s c t : Py.last_char (s +:+ String c t) = Py.last_char (String c t).
Proof.
  induction s as [| x s IH]; [done |].
  change (Py.last_char (String x (s +:+ String c t)) = Py.last_char (String c t)).
  rewrite <- IH. cbn [Py.last_char].
  destruct (s +:+ String c t) eqn:E; [| done].
  destruct s; discriminate E.
Qed.

Lemma last_char_lower s : Py.last_char (Py.lower s) = Py.lower_char <$> Py.last_char s.
Proof.
  induction s as [| c s IH]; [done |].
  cbn [Py.lower Py.last_char]. destruct s as [| c1 s1]; [done |]. exact IH.
Qed.

Lemma last_char_substring f a k :
  (0 < k)%nat -> (a + k = String.length f)%nat ->
  Py.last_char (substring a k f) = Py.last_char f.
Proof.
  revert a k. induction f as [| c f IH]; intros a k Hk Hlen; [simpl in Hlen; lia |].
  destruct a as [| a].
  - simpl in Hlen. subst k.
    change (S (String.length f)) with (String.length (String c f)).
    by rewrite substring_0_length.
  - simpl in Hlen. cbn [substring]. rewrite (IH a k) by lia.
    cbn [Py.last_char]. destruct f; [simpl in Hlen; lia | done].
Qed.

(** A name that ends in [.gii] has none of the special extensions. *)
Lemma split_special_gii stem :
  split_special (stem +:+ ".gii") special_extensions = None.
Proof.
  assert (forall e, (e = ".nii.gz" \/ e = ".tar.gz" \/ e = ".niml.dset") ->
            ((String.length e <? String.length (stem +:+ ".gii"))%nat &&
             String.eqb
               (Py.lower (substring (String.length (stem +:+ ".gii") - String.length e)
                            (String.length e) (stem +:+ ".gii")))
               (Py.lower e))%bool = false) as H.
  { intros e He.
    destruct (String.length e <? String.length (stem +:+ ".gii"))%nat eqn:Hlt; [| done].
    apply Nat.ltb_lt in Hlt. simpl. apply String.eqb_neq. intros Heq.
    apply (f_equal Py.last_char) in Heq.
    rewrite !last_char_lower in Heq.
    rewrite last_char_substring in Heq;
      [| destruct He as [-> | [-> | ->]]; simpl; lia | lia].
    change (stem +:+ ".gii") with (stem +:+ String "." "gii") in Heq.
    rewrite last_char_app in Heq.
    destruct He as [-> | [-> | ->]]; vm_compute in Heq; discriminate Heq. }
  unfold special_extensions. cbn [split_special].
  rewrite !H by auto. reflexivity.
Qed.

Lemma rsplit_dot_gii stem : rsplit_dot (stem +:+ ".gii") = Some (stem, ".gii").
Proof.
  induction stem as [| c stem IH]; [reflexivity |].
  change (rsplit_dot (String c (stem +:+ ".gii")) = Some (String c stem, ".gii")).
  cbn [rsplit_dot]. by rewrite IH.
Qed.

(** *** Names that end in a special extension *)

Lemma substring_suffix s t :
  substring (String.length (s +:+ t) - String.length t) (String.length t) (s +:+ t) = t.
Proof.
  rewrite string_length_app, Nat.add_sub.
  induction s as [| c s IH]; [apply substring_0_length | exact IH].
Qed.

Lemma substring_prefix s t :
  substring 0 (String.length (s +:+ t) - String.length t) (s +:+ t) = s.
Proof.
  rewrite string_length_app, Nat.add_sub.
  induction s as [| c s IH]; [by destruct t |].
  change (String c (substring 0 (String.length s) (s +:+ t)) = String c s). by rewrite IH.
Qed.

(** A special extension that the name does not end in is passed over. *)
Lemma split_special_step fname x exts pre suf :
  fname = pre +:+ suf -> String.length suf = String.length x ->
  Py.lower suf <> Py.lower x ->
  split_special fname (x :: exts) = split_special fname exts.
Proof.
  intros -> Hlen Hne. cbn [split_special]. rewrite <- Hlen, substring_suffix.
  apply String.eqb_neq in Hne. rewrite Hne. by rewrite andb_false_r.
Qed.

(** The special extension that the name ends in is split off. *)
Lemma split_special_hit stem x exts :
  stem <> "" -> split_special (stem +:+ x) (x :: exts) = Some (stem, x).
Proof.
  intros Hstem. cbn [split_special].
  rewrite substring_suffix, substring_prefix, String.eqb_refl.
  assert ((String.length x <? String.length (stem +:+ x))%nat = true) as ->; [| done].
  apply Nat.ltb_lt. rewrite string_length_app. destruct stem; [done | simpl; lia].
Qed.

Lemma split_special_special stem ext :
  ext ∈ special_extensions -> stem <> "" ->
  split_special (stem +:+ ext) special_extensions = Some (stem, ext).
Proof.
  unfold special_extensions. intros Hext Hstem.
  repeat (apply elem_of_cons in Hext as [-> | Hext]); [| | | by apply elem_of_nil in Hext].
  - by apply split_special_hit.
  - rewrite (split_special_step _ _ _ stem ".tar.gz") by done.
    by apply split_special_hit.
  - rewrite (split_special_step _ _ _ (stem +:+ ".ni") "ml.dset");
      [| by rewrite string_app_assoc | done | done].
    rewrite (split_special_step _ _ _ (stem +:+ ".ni") "ml.dset");
      [| by rewrite string_app_assoc | done | done].
    by apply split_special_hit.
Qed.

(** The base name of a name that ends in a special extension. *)
Lemma base_name_special m stem ext :
  ext ∈ special_extensions -> stem <> "" -> basename m = stem +:+ ext ->
  base_name m = stem.
Proof.
  intros Hext Hstem Hb. unfold base_name, split_filename.
  by rewrite Hb, split_special_special.
Qed.

(** The base name of a name that ends in [.gii]. *)
Lemma split_filename_gii m stem :
  basename m = stem +:+ ".gii" -> all_chars "." stem = false ->
  split_filename m = (dirname m, stem, ".gii").
Proof.
  intros Hb Hstem. unfold split_filename. rewrite Hb, split_special_gii.
  unfold splitext. by rewrite rsplit_dot_gii, Hstem.
Qed.

Lemma all_chars_app c s t : all_chars c (s +:+ t) = (all_chars c s && all_chars c t)%bool.
Proof.
  induction s as [| x s IH]; [done |].
  change (all_chars c (String x (s +:+ t)) = (all_chars c (String x s) && all_chars c t)%bool).
  cbn [all_chars]. rewrite IH. by rewrite andb_assoc.
Qed.

Lemma base_name_gii stem :
  no_sep stem = true -> all_chars "." stem = false -> base_name (stem +:+ ".gii") = stem.
Proof.
  intros Hns Hd. unfold base_name.
  rewrite (split_filename_gii _ stem); [done | | done].
  apply basename_id. by rewrite no_sep_app, Hns.
Qed.

(** *** Missing mandatory files *)

Lemma call_fails_on_missing execute c raw w name t :
  (name, t) ∈ input_spec c -> ttype t = File true -> mandatory t = true ->
  missing raw w name ->
  fails_on_input (call execute c raw) w.
Proof.
  intros Hin Hty Hmand Hmiss. unfold fails_on_input, call, run, bind, lift.
  pose proof (set_inputs_world (input_spec c) raw w) as Hw.
  destruct (set_inputs (input_spec c) raw w) as [[[]|e] w1] eqn:Hs; simpl in Hw; subst.
  - unfold missing in Hmiss. destruct (raw !! name) as [p|] eqn:Hp.
    + pose proof (set_inputs_ok _ _ _ _ _ _ Hs Hin Hp) as Hv.
      unfold validate in Hv. rewrite Hty in Hv. unfold path_exists in Hv.
      rewrite Hmiss in Hv. rewrite bool_decide_eq_false_2 in Hv by (by intros [? ?]).
      discriminate.
    + rewrite (check_mandatory_missing _ _ _ _ Hin Hmand Hp). by exists ValueError.
  - rewrite (set_inputs_error _ _ _ _ _ Hs). by exists TraitError.
Qed.

Lemma in_wb_metric_spec suffix name t :
  (name, t) ∈ wb_metric_spec suffix ->
  (name = "surface_file" /\ ttype t = File true) \/
  (name = "metric_file" /\ ttype t = File true) \/
  (name = "out_file" /\ ttype t = File false) \/
  (name = "corrected_areas" /\ ttype t = File true).
Proof.
  unfold wb_metric_spec. intros H.
  repeat (apply elem_of_cons in H as [[= -> ->] | H]); simpl; auto 10.
  by apply elem_of_nil in H.
Qed.

(** Accepted inputs name a file for corrected_areas, when they give it. *)
Lemma corrected_areas_accepted suffix inputs w a :
  set_inputs (wb_metric_spec suffix) inputs w = (Ok tt, w) ->
  inputs !! "corrected_areas" = Some a -> is_Some (files w !! a).
Proof.
  intros Hset Ha.
  assert (validate "corrected_areas"
            (mk_trait (File true) false (Some "-corrected-areas %s") None None None false)
            a w = (Ok tt, w)) as Hv.
  { eapply set_inputs_ok; [exact Hset | | exact Ha].
    unfold wb_metric_spec. do 3 apply list_elem_of_further. apply list_elem_of_here. }
  unfold validate, path_exists in Hv. simpl in Hv.
  case_bool_decide; [done | discriminate].
Qed.

End CommandLineFacts.

Section CommandLineClaims.
Import nipype WB Obs Examples Paths.

(** C3: when a mandatory input file of a wrapper (surface_file or
    metric_file) is undefined or names no file, the call fails with an
    input error and the world is as before: no process was spawned and no
    file written.  The same holds for MetricMath and its metric_file. *)
Theorem C3_missing_input_file execute cwd raw w :
  (forall c suffix name,
     (c, suffix) ∈ wrappers -> name ∈ ["surface_file"; "metric_file"] ->
     missing raw w name ->
     fails_on_input (call execute c raw) w /\
     spawned (call execute c raw w).2 = spawned w /\
     files (call execute c raw w).2 = files w) /\
  (missing raw w "metric_file" ->
   fails_on_input (MetricMath.call cwd raw) w /\
   files (MetricMath.call cwd raw w).2 = files w).
Proof.
  split.
  - intros c suffix name Hc Hname Hmiss.
    destruct (wrappers_spec c suffix Hc) as (cmd & -> & _).
    assert (fails_on_input (call execute (mk_command cmd (wb_metric_spec suffix)) raw) w)
      as (e & He & Hie).
    { repeat (apply elem_of_cons in Hname as [-> | Hname]);
        [| | by apply elem_of_nil in Hname].
      - eapply call_fails_on_missing; [apply list_elem_of_here | done | done | done].
      - eapply call_fails_on_missing;
          [apply list_elem_of_further, list_elem_of_here | done | done | done]. }
    rewrite He. split; [by exists e | done].
  - intros Hmiss.
    assert (fails_on_input (MetricMath.call cwd raw) w) as (e & He & Hie).
    { apply (call_input_error cwd raw w "metric_file"
               (mk_trait (File true) true None None None None false)).
      { unfold MetricMath.MetricMathInputSpec. do 3 apply list_elem_of_further.
        apply list_elem_of_here. }
      unfold missing in Hmiss. destruct (raw !! "metric_file") as [p|]; [| done].
      unfold validate, path_exists. simpl. rewrite Hmiss.
      by rewrite bool_decide_eq_false_2 by (by intros [? ?]). }
    rewrite He. split; [by exists e | done].
Qed.

(** C4: the output name of MetricFillHoles is the base name of the metric
    file followed by _filled.shape.gii (lh.roi.shape.gii gives
    lh.roi.shape_filled.shape.gii), that of MetricRemoveIslands the base
    name followed by _noislands.shape.gii; in both command lines the
    surface file, the metric file and the output name are the first three
    arguments, in this order.  The base name is that of the last component
    of the path, the directory being dropped: the stem of a name
    <stem>.gii, whatever dots the stem holds, and the stem of a name that
    ends in one of .nii.gz, .tar.gz and .niml.dset. *)
Theorem C4_output_name inputs s m :
  inputs !! "surface_file" = Some s -> inputs !! "metric_file" = Some m ->
  inputs !! "out_file" = None ->
  (forall c suffix,
     (c, suffix) ∈ wrappers ->
     _filename_from_source (S (length (input_spec c))) (input_spec c) inputs "out_file" []
       = Ok (Some (base_name m +:+ suffix)) /\
     exists rest,
       _parse_inputs c inputs = Ok (s :: m :: (base_name m +:+ suffix) :: rest) /\
       cmdline c inputs =
         Ok (String.concat " " (_cmd c :: s :: m :: (base_name m +:+ suffix) :: rest))) /\
  (exists ext, base_name m +:+ ext = basename m) /\
  (forall d f, m = d +:+ "/" +:+ f -> no_sep f = true ->
     basename m = f /\ base_name m = base_name f) /\
  (no_sep m = true -> basename m = m) /\
  (forall stem, basename m = stem +:+ ".gii" -> all_chars "." stem = false ->
     base_name m = stem) /\
  (forall stem ext, ext ∈ [".nii.gz"; ".tar.gz"; ".niml.dset"] -> stem <> "" ->
     basename m = stem +:+ ext -> base_name m = stem) /\
  wrappers = [ (MetricFillHoles.MetricFillHoles, "_filled.shape.gii");
               (MetricRemoveIslands.MetricRemoveIslands, "_noislands.shape.gii") ] /\
  base_name "lh.roi.shape.gii" +:+ "_filled.shape.gii" = "lh.roi.shape_filled.shape.gii" /\
  base_name "lh.roi.shape.gii" +:+ "_noislands.shape.gii"
    = "lh.roi.shape_noislands.shape.gii" /\
  base_name "/data/sub-01/lh.roi.shape.gii" +:+ "_filled.shape.gii"
    = "lh.roi.shape_filled.shape.gii" /\
  base_name "anat/lh.thickness.nii.gz" +:+ "_noislands.shape.gii"
    = "lh.thickness_noislands.shape.gii" /\
  base_name "roi" +:+ "_filled.shape.gii" = "roi_filled.shape.gii".
Proof.
  intros Hs Hm Ho.
  split.
  { intros c suffix Hc. destruct (wrappers_spec c suffix Hc) as (cmd & -> & Hp).
    split; [by apply out_file_from_source |].
    exists (corrected_areas_args inputs). split.
    - by apply wb_parse_inputs.
    - by apply wb_cmdline. }
  split; [apply base_name_basename |].
  split.
  { intros d f -> Hf. rewrite (base_name_of_basename (d +:+ "/" +:+ f)).
    by rewrite basename_dir. }
  split; [apply basename_id |].
  split.
  { intros stem Hb Hstem. unfold base_name. by rewrite (split_filename_gii m stem). }
  split; [intros stem ext Hext Hstem Hb; by apply (base_name_special m stem ext) |].
  by vm_compute.
Qed.

(** C8, as amended: the command line of each wrapper is
    wb_command -metric-fill-holes (respectively -metric-remove-islands)
    <surface> <metric-in> <metric-out>, followed by
    -corrected-areas <area-metric> when corrected_areas is given, and by
    nothing when it is not; inputs that the wrapper accepts give a
    corrected_areas, if any, that names a file. *)
Theorem C8_command_line inputs s m :
  inputs !! "surface_file" = Some s -> inputs !! "metric_file" = Some m ->
  inputs !! "out_file" = None ->
  forall c suffix,
    (c, suffix) ∈ wrappers ->
    let out := base_name m +:+ suffix in
    (c = MetricFillHoles.MetricFillHoles /\ _cmd c = "wb_command -metric-fill-holes" \/
     c = MetricRemoveIslands.MetricRemoveIslands /\
     _cmd c = "wb_command -metric-remove-islands") /\
    (forall a, inputs !! "corrected_areas" = Some a ->
       cmdline c inputs =
         Ok (String.concat " " [_cmd c; s; m; out; "-corrected-areas " +:+ a])) /\
    (inputs !! "corrected_areas" = None ->
       cmdline c inputs = Ok (String.concat " " [_cmd c; s; m; out])) /\
    (forall w a,
       set_inputs (input_spec c) inputs w = (Ok tt, w) ->
       inputs !! "corrected_areas" = Some a -> is_Some (files w !! a)).
Proof.
  intros Hs Hm Ho c suffix Hc out.
  split.
  { unfold wrappers in Hc.
    repeat (apply elem_of_cons in Hc as [[= -> ->] | Hc]); [| | by apply elem_of_nil in Hc];
      auto. }
  destruct (wrappers_spec c suffix Hc) as (cmd & -> & Hp).
  pose proof (wb_cmdline cmd suffix inputs s m Hp Hs Hm Ho) as Hcmd.
  unfold corrected_areas_args in Hcmd.
  split; [| split].
  - intros a Ha. by rewrite Ha in Hcmd.
  - intros Ha. by rewrite Ha in Hcmd.
  - intros w a Hset Ha. by eapply corrected_areas_accepted.
Qed.

End CommandLineClaims.

(** * The claims at concrete inputs *)

Section Instances.
Import gifti nipype WB Obs Elementwise Examples.

Local Ltac by_computation := refine (bool_decide_unpack _ _); vm_compute; exact I.
Local Ltac by_membership :=
  repeat first [apply list_elem_of_here | apply list_elem_of_further].

(** The calls on the examples complete. *)
Lemma example_call op b dt :
  op ∈ ["invert"; "abs"; "bin"] ->
  b ∈ [ints; floats; int32_min; bytes] ->
  MetricMath.call "/work" (inputs_of op) (world_of b dt)
    = (Ok out_path, after op (world_of b dt)).
Proof.
  intros Hop Hb.
  repeat (apply elem_of_cons in Hop as [-> | Hop]); [| | | by apply elem_of_nil in Hop];
    (repeat (apply elem_of_cons in Hb as [-> | Hb]); [| | | | by apply elem_of_nil in Hb]);
    unfold after;
    by destruct (MetricMath.call _ _ _) as [r w1] eqn:E; vm_compute in E;
       injection E as <- <-.
Qed.

(** The claim C1 as it is worded (invert negates each element and abs
    takes its absolute value, for every input array) fails on an int32
    array holding -2^31, which both operations leave as it is, and on
    a uint8 array, whose elements invert replaces by their opposites
    modulo 256. *)
Lemma C1_counterexample :
  np.wf_buffer int32_min /\ np.wf_buffer bytes /\
  values (transformed "abs" int32_min NIFTI_TYPE_INT32) = Some [-2147483648] /\
  values (transformed "abs" int32_min NIFTI_TYPE_INT32)
    <> Some (map Z.abs [-2147483648]) /\
  values (transformed "invert" int32_min NIFTI_TYPE_INT32) = Some [-2147483648] /\
  values (transformed "invert" int32_min NIFTI_TYPE_INT32)
    <> Some (map Z.opp [-2147483648]) /\
  values (transformed "invert" bytes NIFTI_TYPE_UINT8) = Some [253] /\
  values (transformed "invert" bytes NIFTI_TYPE_UINT8) <> Some (map Z.opp [3]).
Proof.
  split; [repeat constructor; by vm_compute |].
  split; [repeat constructor; by vm_compute |].
  vm_compute. repeat split; congruence.
Qed.

(** C1 at the float32 array [-2, 0, 3] under invert. *)
Lemma C1_witness :
  MetricMath.call "/work" (inputs_of "invert") (world_of floats NIFTI_TYPE_FLOAT32)
    = (Ok out_path, after "invert" (world_of floats NIFTI_TYPE_FLOAT32)) /\
  exists img d0 img' d0' written,
    transforms "/work" (inputs_of "invert") (world_of floats NIFTI_TYPE_FLOAT32)
      out_path (after "invert" (world_of floats NIFTI_TYPE_FLOAT32)) img d0 img' d0' /\
    np.shape (data d0') = np.shape (data d0) /\
    (inputs_of "invert" !! "operation" = Some "invert" ->
     gifti_buffer (np.elems (data d0)) ->
     Some (np.elems (data d0')) = inverted (np.elems (data d0))) /\
    (inputs_of "invert" !! "operation" = Some "abs" ->
     gifti_buffer (np.elems (data d0)) ->
     np.elems (data d0') = absolute_values (np.elems (data d0))) /\
    (inputs_of "invert" !! "operation" = Some "bin" ->
     np.int_values (np.elems (data d0')) = Some (positive_mask (np.elems (data d0))) /\
     datatype d0' = NIFTI_TYPE_UINT8) /\
    first_darray (image_at (after "invert" (world_of floats NIFTI_TYPE_FLOAT32)) out_path)
      = Some written /\
    data written = reread (machine (world_of floats NIFTI_TYPE_FLOAT32)) d0' /\
    datatype written = datatype d0'.
Proof.
  assert (MetricMath.call "/work" (inputs_of "invert") (world_of floats NIFTI_TYPE_FLOAT32)
          = (Ok out_path, after "invert" (world_of floats NIFTI_TYPE_FLOAT32))) as H
    by (apply example_call; by_membership).
  split; [exact H |].
  exact (proj2 (proj2 C1_array_transform) "/work" (inputs_of "invert")
           (world_of floats NIFTI_TYPE_FLOAT32) _ _ H).
Defined.

(** C2 at the operation square. *)
Lemma C2_witness :
  (inputs_of "square" !! "operation" ∉ [Some "invert"; Some "abs"; Some "bin"]) /\
  fails_on_input (MetricMath.call "/work" (inputs_of "square")) (world_of ints NIFTI_TYPE_INT32).
Proof.
  assert (inputs_of "square" !! "operation" ∉ [Some "invert"; Some "abs"; Some "bin"]) as H
    by by_computation.
  split; [exact H |].
  exact (proj1 (C2_unrecognized_operation "/work" (inputs_of "square")
                  (world_of ints NIFTI_TYPE_INT32) H)).
Defined.

(** C3 for MetricFillHoles in a world without files. *)
Lemma C3_witness :
  missing wb_inputs empty_world "surface_file" /\
  fails_on_input (call quiet_tool MetricFillHoles.MetricFillHoles wb_inputs) empty_world.
Proof.
  assert (missing wb_inputs empty_world "surface_file") as H by (by vm_compute).
  split; [exact H |].
  refine (proj1 (proj1 (C3_missing_input_file quiet_tool "/work" wb_inputs empty_world)
                   MetricFillHoles.MetricFillHoles "_filled.shape.gii" "surface_file"
                   _ _ H)); by_membership.
Defined.

(** C4 at the inputs of the doctest of MetricFillHoles. *)
Lemma C4_witness :
  _filename_from_source 5 MetricFillHoles.MetricFillHolesInputSpec wb_inputs "out_file" []
    = Ok (Some (base_name "lh.roi.shape.gii" +:+ "_filled.shape.gii")).
Proof.
  refine (proj1 (proj1 (C4_output_name wb_inputs "lh.midthickness.surf.gii"
                          "lh.roi.shape.gii" _ _ _)
                   MetricFillHoles.MetricFillHoles "_filled.shape.gii" _));
    first [by vm_compute | by_membership].
Defined.

(** C5 at hemisphere L. *)
Lemma C5_witness :
  MetricMath.call "/work" (inputs_of "abs") (world_of ints NIFTI_TYPE_INT32)
    = (Ok out_path, after "abs" (world_of ints NIFTI_TYPE_INT32)) /\
  exists img d0 img' d0' written,
    transforms "/work" (inputs_of "abs") (world_of ints NIFTI_TYPE_INT32)
      out_path (after "abs" (world_of ints NIFTI_TYPE_INT32)) img d0 img' d0' /\
    image_at (after "abs" (world_of ints NIFTI_TYPE_INT32)) out_path = Some written /\
    img_meta written !! "AnatomicalStructurePrimary" = Some "CortexLeft".
Proof.
  assert (MetricMath.call "/work" (inputs_of "abs") (world_of ints NIFTI_TYPE_INT32)
          = (Ok out_path, after "abs" (world_of ints NIFTI_TYPE_INT32))) as H
    by (apply example_call; by_membership).
  split; [exact H |].
  destruct (C5_anatomical_structure "/work" (inputs_of "abs")
              (world_of ints NIFTI_TYPE_INT32) _ _ H)
    as (img & d0 & img' & d0' & written & HT & Hw & Heq & HL & _).
  exists img, d0, img', d0', written. split; [exact HT |]. split; [exact Hw |].
  rewrite Heq. apply HL. by vm_compute.
Defined.

(** C6 at hemisphere L and metric thickness, without subject. *)
Lemma C6_witness :
  MetricMath.call "/work" (inputs_of "bin") (world_of ints NIFTI_TYPE_INT32)
    = (Ok out_path, after "bin" (world_of ints NIFTI_TYPE_INT32)) /\
  exists img d0 img' d0',
    transforms "/work" (inputs_of "bin") (world_of ints NIFTI_TYPE_INT32)
      out_path (after "bin" (world_of ints NIFTI_TYPE_INT32)) img d0 img' d0' /\
    meta d0' !! "Name" = Some "sub-XYZ_L_thickness".
Proof.
  assert (MetricMath.call "/work" (inputs_of "bin") (world_of ints NIFTI_TYPE_INT32)
          = (Ok out_path, after "bin" (world_of ints NIFTI_TYPE_INT32))) as H
    by (apply example_call; by_membership).
  split; [exact H |].
  destruct (C6_map_name "/work" (inputs_of "bin") (world_of ints NIFTI_TYPE_INT32) _ _ H)
    as (img & d0 & img' & d0' & written & HT & _ & _ & _ & Hname).
  exists img, d0, img', d0'. split; [exact HT |].
  apply Hname; by vm_compute.
Defined.

(** C7 at hemisphere L and metric thickness in /work. *)
Lemma C7_witness :
  MetricMath.call "/work" (inputs_of "bin") (world_of ints NIFTI_TYPE_INT32)
    = (Ok out_path, after "bin" (world_of ints NIFTI_TYPE_INT32)) /\
  out_path = "/work" +:+ "/" +:+ "lh.thickness.native.shape.gii" /\
  is_Some (files (after "bin" (world_of ints NIFTI_TYPE_INT32)) !! out_path).
Proof.
  assert (MetricMath.call "/work" (inputs_of "bin") (world_of ints NIFTI_TYPE_INT32)
          = (Ok out_path, after "bin" (world_of ints NIFTI_TYPE_INT32))) as H
    by (apply example_call; by_membership).
  split; [exact H |].
  destruct (C7_output_path "/work" (inputs_of "bin") (world_of ints NIFTI_TYPE_INT32) _ _ H)
    as (name & Hsome & _ & _ & Hout & Hname & _).
  split; [| exact Hsome].
  rewrite Hout, Hname by (by vm_compute). reflexivity.
Defined.

(** With corrected_areas given, the command line of the code ends with the
    option, after the output name; the template of C8 has the option before
    the output name. *)
Lemma C8_counterexample :
  cmdline MetricFillHoles.MetricFillHoles wb_inputs_areas =
    Ok ("wb_command -metric-fill-holes lh.midthickness.surf.gii lh.roi.shape.gii "
          +:+ "lh.roi.shape_filled.shape.gii -corrected-areas areas.shape.gii") /\
  spec_template "wb_command -metric-fill-holes" "lh.midthickness.surf.gii"
    "lh.roi.shape.gii" (Some "areas.shape.gii") "lh.roi.shape_filled.shape.gii" =
    "wb_command -metric-fill-holes lh.midthickness.surf.gii lh.roi.shape.gii "
      +:+ "-corrected-areas areas.shape.gii lh.roi.shape_filled.shape.gii" /\
  cmdline MetricFillHoles.MetricFillHoles wb_inputs_areas <>
    Ok (spec_template "wb_command -metric-fill-holes" "lh.midthickness.surf.gii"
          "lh.roi.shape.gii" (Some "areas.shape.gii") "lh.roi.shape_filled.shape.gii") /\
  cmdline MetricRemoveIslands.MetricRemoveIslands wb_inputs_areas <>
    Ok (spec_template "wb_command -metric-remove-islands" "lh.midthickness.surf.gii"
          "lh.roi.shape.gii" (Some "areas.shape.gii") "lh.roi.shape_noislands.shape.gii").
Proof. vm_compute. repeat split; congruence. Qed.

(** C8 for MetricRemoveIslands with corrected_areas given. *)
Lemma C8_witness :
  cmdline MetricRemoveIslands.MetricRemoveIslands wb_inputs_areas =
    Ok (String.concat " "
          ["wb_command -metric-remove-islands"; "lh.midthickness.surf.gii";
           "lh.roi.shape.gii"; base_name "lh.roi.shape.gii" +:+ "_noislands.shape.gii";
           "-corrected-areas " +:+ "areas.shape.gii"]).
Proof.
  refine (proj1 (proj2 (C8_command_line wb_inputs_areas "lh.midthickness.surf.gii"
                          "lh.roi.shape.gii" _ _ _
                          MetricRemoveIslands.MetricRemoveIslands "_noislands.shape.gii" _))
                "areas.shape.gii" _);
    first [by vm_compute | by_membership].
Defined.

(** The claim C9 as it is worded (the array written keeps every attribute
    of the input's first array but its values, the endianness among them)
    fails on a big-endian array read on a little-endian machine: the array
    in the file is little-endian.  The external file name and offset and the
    map name of the input array are not those of the array written either. *)
Lemma C9_counterexample :
  exists img d0 written,
    MetricMath.call "/work" (inputs_of "invert") MoreExamples.annotated_world
      = (Ok out_path, after "invert" MoreExamples.annotated_world) /\
    input_image (inputs_of "invert") MoreExamples.annotated_world = Some img /\
    darrays img !! 0%nat = Some d0 /\
    first_darray (image_at (after "invert" MoreExamples.annotated_world) out_path)
      = Some written /\
    endian d0 = 1 /\ endian written = 2 /\ endian written <> endian d0 /\
    ext_fname d0 = "ext.dat" /\ ext_fname written = "" /\
    ext_offset d0 = 128 /\ ext_offset written = 0 /\
    meta d0 !! "Name" = Some "old" /\
    meta written !! "Name" = Some "sub-XYZ_L_thickness".
Proof.
  eexists _, _, _.
  split; [unfold after; by destruct (MetricMath.call _ _ _) as [r w1] eqn:E;
            vm_compute in E; injection E as <- <- |].
  split; [by vm_compute |]. split; [by vm_compute |]. split; [by vm_compute |].
  vm_compute. repeat split; congruence.
Qed.

(** C9 under bin. *)
Lemma C9_witness :
  MetricMath.call "/work" (inputs_of "bin") (world_of ints NIFTI_TYPE_INT32)
    = (Ok out_path, after "bin" (world_of ints NIFTI_TYPE_INT32)) /\
  exists img d0 img' d0' written,
    transforms "/work" (inputs_of "bin") (world_of ints NIFTI_TYPE_INT32)
      out_path (after "bin" (world_of ints NIFTI_TYPE_INT32)) img d0 img' d0' /\
    first_darray (image_at (after "bin" (world_of ints NIFTI_TYPE_INT32)) out_path)
      = Some written /\
    intent d0' = intent d0 /\ datatype d0' = NIFTI_TYPE_UINT8 /\
    datatype written = NIFTI_TYPE_UINT8 /\
    endian written = byteorder (machine (world_of ints NIFTI_TYPE_INT32)).
Proof.
  assert (MetricMath.call "/work" (inputs_of "bin") (world_of ints NIFTI_TYPE_INT32)
          = (Ok out_path, after "bin" (world_of ints NIFTI_TYPE_INT32))) as H
    by (apply example_call; by_membership).
  split; [exact H |].
  destruct (C9_darray_attributes "/work" (inputs_of "bin") (world_of ints NIFTI_TYPE_INT32)
              _ _ H)
    as (img & d0 & img' & d0' & written & HT & Hi & _ & _ & _ & _ & _ & Hbin & _ & _ & _ & _
        & Hw & _ & _ & _ & _ & Hdt & _ & Hen).
  exists img, d0, img', d0', written. split; [exact HT |]. split; [exact Hw |].
  split; [exact Hi |].
  assert (datatype d0' = NIFTI_TYPE_UINT8) as Hd by (apply Hbin; by vm_compute).
  split; [exact Hd |]. split; [by rewrite Hdt | exact Hen].
Defined.



End Instances.

(** * Further properties of MetricMath *)

Section MetricMathExtras.
Import gifti nipype Obs Elementwise Examples.

Local Ltac by_computation := refine (bool_decide_unpack _ _); vm_compute; exact I.
Local Ltac by_membership :=
  repeat first [apply list_elem_of_here | apply list_elem_of_further].

(** A call either stops on its inputs or is [_run_interface]. *)
Lemma call_cases cwd raw w :
  fails_on_input (MetricMath.call cwd raw) w \/
  MetricMath.call cwd raw w = MetricMath._run_interface cwd raw w.
Proof.
  unfold fails_on_input, MetricMath.call, MetricMath.run, bind, lift.
  pose proof (set_inputs_world MetricMath.MetricMathInputSpec raw w) as Hw.
  destruct (set_inputs _ raw w) as [[[]|e] w1] eqn:Hs; simpl in Hw; subst.
  - destruct (_check_mandatory_inputs _ raw) as [[]|e] eqn:Hc; [by right |].
    left. rewrite (check_mandatory_error _ _ _ Hc). by exists ValueError.
  - left. rewrite (set_inputs_error _ _ _ _ _ Hs). by exists TraitError.
Qed.

(** Inputs from which the image was prepared are accepted. *)
Lemma call_prepared cwd raw w img' out :
  prepare cwd raw w = Ok (img', out) ->
  MetricMath.call cwd raw w = MetricMath._run_interface cwd raw w.
Proof.
  intros Hp.
  destruct (prepare_inv _ _ _ _ _ Hp)
    as (img & d0 & h & st & data' & dt' & Hi & _ & Hh & Hst & Hop & _).
  assert (exists op, raw !! "operation" = Some op /\ op ∈ ["invert"; "abs"; "bin"])
    as (op & Ho & Hov).
  { apply apply_operation_inv in Hop as [(Ho & _) | [(Ho & _) | (Ho & _)]];
      eexists; (split; [exact Ho | by_membership]). }
  apply (call_valid cwd raw w img h op); try done.
  apply structures_lookup in Hst as [[-> _] | [-> _]]; by_membership.
Qed.

(** X1: MetricMath changes nothing before it writes, and the write
    decides the rest.  When the image cannot be prepared (the inputs are
    rejected, the file is not a readable GIFTI file, it has no data array)
    the call raises, and the files and the list of spawned processes are
    those found.  When the write itself raises, the call raises the writer's
    exception, no process was spawned, and the files are what the writer
    left.  When the write goes through, the call returns the path. *)
Theorem X1_call_outcomes cwd raw w :
  (forall e, prepare cwd raw w = Raise e -> fails_cleanly (MetricMath.call cwd raw) w) /\
  (forall img' out e w1,
     prepare cwd raw w = Ok (img', out) -> to_filename img' out w = (Raise e, w1) ->
     MetricMath.call cwd raw w = (Raise e, w1) /\ spawned w1 = spawned w) /\
  (forall img' out w1,
     prepare cwd raw w = Ok (img', out) -> to_filename img' out w = (Ok tt, w1) ->
     MetricMath.call cwd raw w = (Ok out, w1)).
Proof.
  split; [| split].
  - intros e He.
    destruct (call_cases cwd raw w) as [(e' & H & _) | H]; [by exists e' |].
    exists e. by rewrite H, run_interface_prepare, He.
  - intros img' out e w1 Hp Hto.
    rewrite (call_prepared _ _ _ _ _ Hp), run_interface_prepare, Hp, Hto.
    split; [done |].
    unfold to_filename in Hto.
    destruct (write_outcome _ _ _ _) as [[e1|] fs]; [| discriminate].
    by injection Hto as _ <-.
  - intros img' out w1 Hp Hto.
    by rewrite (call_prepared _ _ _ _ _ Hp), run_interface_prepare, Hp, Hto.
Qed.

(** X1 on a machine where the write raises. *)
Lemma X1_witness :
  MetricMath.call "/work" (inputs_of "abs") MoreExamples.unwritable_world
    = (Raise (FileNotFoundError out_path), MoreExamples.unwritable_world).
Proof.
  refine (proj1 (proj1 (proj2 (X1_call_outcomes "/work" (inputs_of "abs")
                                 MoreExamples.unwritable_world)) _ _ _ _ _ _));
    by vm_compute.
Defined.

(** X4: a hemisphere other than L and R never reaches the output: the
    call stops with an input error, and [_run_interface] called on a readable
    GIFTI file raises KeyError on the hemisphere, before anything is
    written. *)
Theorem X4_bad_hemisphere cwd raw w :
  Py.str (raw !! "hemisphere") ∉ ["L"; "R"] ->
  fails_on_input (MetricMath.call cwd raw) w /\
  (forall img, input_image raw w = Some img ->
     MetricMath._run_interface cwd raw w
       = (Raise (KeyError (Py.str (raw !! "hemisphere"))), w)).
Proof.
  intros Hh. split.
  - apply (call_input_error cwd raw w "hemisphere"
             (mk_trait (Enum ["L"; "R"]) true None None None None false)).
    { unfold MetricMath.MetricMathInputSpec. by_membership. }
    destruct (raw !! "hemisphere") as [h|]; [| done].
    unfold validate. simpl. by rewrite bool_decide_eq_false_2.
  - intros img Hi. apply input_image_Some in Hi as (p & Hp & Hf).
    unfold MetricMath._run_interface, bind, lift, from_filename, dict_getitem.
    rewrite Hp, Hf.
    destruct (MetricMath.structures !! Py.str (raw !! "hemisphere")) as [st|] eqn:Hst;
      [| done].
    exfalso. apply Hh.
    apply structures_lookup in Hst as [[-> _] | [-> _]]; by_membership.
Qed.

(** X4 at the hemisphere B. *)
Lemma X4_witness :
  fails_on_input
    (MetricMath.call "/work" (<["hemisphere" := "B"]> (inputs_of "abs")))
    (world_of ints NIFTI_TYPE_INT32).
Proof.
  refine (proj1 (X4_bad_hemisphere "/work" (<["hemisphere" := "B"]> (inputs_of "abs"))
                   (world_of ints NIFTI_TYPE_INT32) _)).
  by_computation.
Defined.

(** X5: on an image without data arrays the subscript [darrays[0]] raises
    IndexError, whatever the operation, and no file is written. *)
Theorem X5_no_data_array cwd raw w img h op :
  input_image raw w = Some img -> darrays img = [] ->
  raw !! "hemisphere" = Some h -> h ∈ ["L"; "R"] ->
  raw !! "operation" = Some op -> op ∈ ["invert"; "abs"; "bin"] ->
  MetricMath.call cwd raw w = (Raise IndexError, w) /\
  MetricMath._run_interface cwd raw w = (Raise IndexError, w).
Proof.
  intros Hi Hd Hh Hhv Ho Hov.
  rewrite (call_valid cwd raw w img h op Hi Hh Hhv Ho Hov).
  assert (MetricMath._run_interface cwd raw w = (Raise IndexError, w)) as H; [| by split].
  apply input_image_Some in Hi as (p & Hp & Hf).
  unfold MetricMath._run_interface, bind, lift, from_filename, dict_getitem, list_getitem.
  rewrite Hp, Hf, Hh, Hd. simpl.
  assert (exists st, MetricMath.structures !! h = Some st) as [st ->]; [| done].
  repeat (apply elem_of_cons in Hhv as [-> | Hhv]); [| | by apply elem_of_nil in Hhv];
    eexists; by vm_compute.
Qed.

(** X5 at an empty image under abs. *)
Lemma X5_witness :
  MetricMath.call "/work" (inputs_of "abs") MoreExamples.empty_image_world
    = (Raise IndexError, MoreExamples.empty_image_world).
Proof.
  refine (proj1 (X5_no_data_array "/work" (inputs_of "abs") _ (mk_image ∅ [] [] "1.0")
                   "L" "abs" _ _ _ _ _ _));
    first [by vm_compute | by_membership].
Defined.

(** *** The operations composed *)

Lemma int32_opp_range x : np.in_int32 x -> np.in_int32 (int32_opp x).
Proof.
  unfold np.in_int32, int32_opp. intros H.
  destruct (Z.eqb_spec x (-2147483648)); lia.
Qed.

Lemma int32_opp_involutive x : np.in_int32 x -> int32_opp (int32_opp x) = x.
Proof.
  unfold np.in_int32, int32_opp. intros H.
  destruct (Z.eqb_spec x (-2147483648)) as [-> | Hx]; [reflexivity |].
  destruct (Z.eqb_spec (- x) (-2147483648)); lia.
Qed.

Lemma uint8_opp_range x : np.in_uint8 x -> np.in_uint8 (uint8_opp x).
Proof.
  unfold np.in_uint8, uint8_opp. intros H. destruct (Z.eqb_spec x 0); lia.
Qed.

Lemma uint8_opp_involutive x : np.in_uint8 x -> uint8_opp (uint8_opp x) = x.
Proof.
  unfold np.in_uint8, uint8_opp. intros H.
  destruct (Z.eqb_spec x 0) as [-> | Hx]; [reflexivity |].
  destruct (Z.eqb_spec (256 - x) 0); lia.
Qed.

Lemma int32_abs_range x : np.in_int32 x -> np.in_int32 (int32_abs x).
Proof.
  unfold np.in_int32, int32_abs. intros H.
  destruct (Z.eqb_spec x (-2147483648)); lia.
Qed.

Lemma int32_abs_idempotent x : int32_abs (int32_abs x) = int32_abs x.
Proof.
  unfold int32_abs.
  destruct (Z.eqb_spec x (-2147483648)) as [-> | Hx]; [reflexivity |].
  destruct (Z.eqb_spec (Z.abs x) (-2147483648)); lia.
Qed.

Lemma SFopp_involutive x : SFopp (SFopp x) = x.
Proof. destruct x as [s | s | | s m e]; simpl; by rewrite ?negb_involutive. Qed.

Lemma SFabs_idempotent x : SFabs (SFabs x) = SFabs x.
Proof. by destruct x. Qed.

Lemma map_involutive {A} (P : A -> Prop) (f : A -> A) (l : list A) :
  (forall x, P x -> f (f x) = x) -> Forall P l -> map f (map f l) = l.
Proof.
  intros Hf. induction 1 as [| x l Hx _ IH]; simpl; [done |].
  by rewrite (Hf x Hx), IH.
Qed.

Lemma inverted_gifti b b' :
  gifti_buffer b -> inverted b = Some b' -> gifti_buffer b' /\ inverted b' = Some b.
Proof.
  destruct b as [l | l | l | l]; simpl; intros Hg [= <-]; simpl.
  - split.
    + apply Forall_map. eapply Forall_impl; [exact Hg |]. apply uint8_opp_range.
    + do 2 f_equal. eapply map_involutive; [| exact Hg]. apply uint8_opp_involutive.
  - split.
    + apply Forall_map. eapply Forall_impl; [exact Hg |]. apply int32_opp_range.
    + do 2 f_equal. eapply map_involutive; [| exact Hg]. apply int32_opp_involutive.
  - split; [done |].
    do 2 f_equal. eapply (map_involutive (fun _ => True)).
    + intros x _. apply SFopp_involutive.
    + by apply Forall_true.
Qed.

Lemma negative_inverted a a' :
  gifti_buffer (np.elems a) -> np.negative a = Ok a' ->
  np.shape a' = np.shape a /\ inverted (np.elems a) = Some (np.elems a').
Proof.
  intros Hg. unfold np.negative.
  pose proof (negative_buffer_spec _ Hg) as Hn.
  destruct (np.negative_buffer (np.elems a)) as [b|]; simpl; [| discriminate].
  intros [= <-]. simpl. split; [done |].
  destruct (inverted (np.elems a)); simpl in Hn; congruence.
Qed.

(** X6: invert undoes itself on every array of a GIFTI element type, the
    int32 -2^31 and the uint8 wrap-around included: applied to an array that
    holds the result of invert, it gives back the original elements, shape
    and datatype. *)
Theorem X6_invert_involution d0 d1 a dt :
  gifti_buffer (np.elems (data d0)) ->
  MetricMath.apply_operation (Some "invert") d0 = Ok (Some a, dt) ->
  data d1 = a -> datatype d1 = dt ->
  MetricMath.apply_operation (Some "invert") d1 = Ok (Some (data d0), datatype d0).
Proof.
  intros Hg Hop Hd1 Hdt.
  apply apply_operation_inv in Hop as [(Ho & _) | [(_ & Hn & ->) | (Ho & _)]];
    try discriminate.
  destruct (negative_inverted _ _ Hg Hn) as [Hsh Hinv].
  destruct (inverted_gifti _ _ Hg Hinv) as [Hg' Hinv'].
  unfold MetricMath.apply_operation.
  rewrite bool_decide_eq_false_2 by done. rewrite bool_decide_eq_true_2 by done.
  rewrite Hdt, Hd1. unfold np.negative.
  pose proof (negative_buffer_spec _ Hg') as Hn'. rewrite Hinv' in Hn'. simpl in Hn'.
  injection Hn' as <-. simpl. rewrite Hsh. by destruct (data d0).
Qed.

(** X6 at the uint8 array [3]. *)
Lemma X6_witness :
  MetricMath.apply_operation (Some "invert")
    (darray_of (np.UInt8 [253]) NIFTI_TYPE_UINT8)
  = Ok (Some (data (darray_of bytes NIFTI_TYPE_UINT8)), NIFTI_TYPE_UINT8).
Proof.
  refine (X6_invert_involution (darray_of bytes NIFTI_TYPE_UINT8)
            (darray_of (np.UInt8 [253]) NIFTI_TYPE_UINT8)
            (np.mk_ndarray [1%nat] (np.UInt8 [253])) NIFTI_TYPE_UINT8 _ _ _ _);
    first [reflexivity | repeat constructor; by vm_compute].
Defined.

Lemma absolute_values_idempotent b :
  gifti_buffer b ->
  gifti_buffer (absolute_values b) /\
  absolute_values (absolute_values b) = absolute_values b.
Proof.
  destruct b as [l | l | l | l]; simpl; intros Hg; try done.
  - split.
    + apply Forall_map. eapply Forall_impl; [exact Hg |]. apply int32_abs_range.
    + f_equal. rewrite map_map. apply map_ext. intros x. apply int32_abs_idempotent.
  - split; [done |].
    f_equal. rewrite map_map. apply map_ext. intros x. apply SFabs_idempotent.
Qed.

(** X7: abs is idempotent on every array of a GIFTI element type: applied
    to an array that holds the result of abs, it leaves the elements as they
    are. *)
Theorem X7_abs_idempotent d0 d1 a dt :
  gifti_buffer (np.elems (data d0)) ->
  MetricMath.apply_operation (Some "abs") d0 = Ok (Some a, dt) ->
  data d1 = a ->
  MetricMath.apply_operation (Some "abs") d1 = Ok (Some a, datatype d1).
Proof.
  intros Hg Hop Hd1.
  apply apply_operation_inv in Hop as [(_ & Hn & ->) | [(Ho & _) | (Ho & _)]];
    try discriminate.
  unfold np.absolute in Hn. rewrite (absolute_buffer_spec _ Hg) in Hn.
  simpl in Hn. injection Hn as <-.
  destruct (absolute_values_idempotent _ Hg) as [Hg' Hid].
  unfold MetricMath.apply_operation. rewrite bool_decide_eq_true_2 by done.
  rewrite Hd1. unfold np.absolute. simpl.
  rewrite (absolute_buffer_spec _ Hg'). simpl. by rewrite Hid.
Qed.

(** X7 at the int32 array [-2^31]. *)
Lemma X7_witness :
  MetricMath.apply_operation (Some "abs") (darray_of int32_min NIFTI_TYPE_INT32)
  = Ok (Some (np.mk_ndarray [1%nat] int32_min), NIFTI_TYPE_INT32).
Proof.
  refine (X7_abs_idempotent (darray_of int32_min NIFTI_TYPE_INT32)
            (darray_of int32_min NIFTI_TYPE_INT32)
            (np.mk_ndarray [1%nat] int32_min) NIFTI_TYPE_INT32 _ _ _);
    first [reflexivity | repeat constructor; by vm_compute].
Defined.

(** *** The replacement data array *)

Lemma apply_operation_size op d0 a dt :
  MetricMath.apply_operation op d0 = Ok (Some a, dt) ->
  np.shape a = np.shape (data d0) /\
  np.size (np.elems a) = np.size (np.elems (data d0)).
Proof.
  intros Hop.
  apply apply_operation_inv in Hop as [(_ & Hn & _) | [(_ & Hn & _) | (_ & -> & _)]].
  - unfold np.absolute in Hn.
    destruct (np.elems (data d0)) as [l|l|l|l] eqn:E; simpl in Hn;
      injection Hn as <-; simpl; by rewrite ?length_map.
  - unfold np.negative in Hn.
    destruct (np.elems (data d0)) as [l|l|l|l] eqn:E; simpl in Hn; try discriminate;
      injection Hn as <-; simpl; by rewrite ?length_map.
  - unfold np.greater_zero. simpl.
    destruct (np.elems (data d0)) as [l|l|l|l]; simpl; by rewrite ?length_map.
Qed.

(** X8: in every completed invocation the replacement data array has the
    shape and the number of elements of the array it replaces, and its dims
    are that shape.  Of the array's own metadata only Name is set, every
    other entry is carried over.  The external file name and offset are not
    carried over: they are empty and 0 on the new array. *)
Theorem X8_replacement_array cwd raw w out w' :
  MetricMath.call cwd raw w = (Ok out, w') ->
  exists img d0 img' d0',
    transforms cwd raw w out w' img d0 img' d0' /\
    np.shape (data d0') = np.shape (data d0) /\
    np.size (np.elems (data d0')) = np.size (np.elems (data d0)) /\
    dims d0' = np.shape (data d0) /\
    (forall key, key <> "Name" -> meta d0' !! key = meta d0 !! key) /\
    ext_fname d0' = "" /\ ext_offset d0' = 0.
Proof.
  intros Hc.
  destruct (call_transforms _ _ _ _ _ Hc)
    as (img & d0 & img' & d0' & h & st & data' & dt' & HT & _ & _ & Hop & Hd0' & _).
  exists img, d0, img', d0'. split; [exact HT |]. rewrite Hd0'. simpl.
  destruct (apply_operation_size _ _ _ _ Hop) as [Hsh Hsz].
  repeat split; try done.
  intros key Hk. by rewrite lookup_insert_ne.
Qed.

(** X8 at an array with a Units entry and an external file reference. *)
Lemma X8_witness :
  MetricMath.call "/work" (inputs_of "bin") MoreExamples.annotated_world
    = (Ok out_path, after "bin" MoreExamples.annotated_world) /\
  exists img d0 img' d0',
    transforms "/work" (inputs_of "bin") MoreExamples.annotated_world
      out_path (after "bin" MoreExamples.annotated_world) img d0 img' d0' /\
    meta d0' !! "Units" = Some "mm" /\ ext_fname d0 = "ext.dat" /\ ext_fname d0' = "".
Proof.
  assert (MetricMath.call "/work" (inputs_of "bin") MoreExamples.annotated_world
          = (Ok out_path, after "bin" MoreExamples.annotated_world)) as H.
  { unfold after. by destruct (MetricMath.call _ _ _) as [r w1] eqn:E;
      vm_compute in E; injection E as <- <-. }
  split; [exact H |].
  destruct (X8_replacement_array "/work" (inputs_of "bin") MoreExamples.annotated_world _ _ H)
    as (img & d0 & img' & d0' & HT & _ & _ & _ & Hmeta & Hext & _).
  exists img, d0, img', d0'. split; [exact HT |].
  destruct HT as (Hi & Hd & _).
  assert (Some d0 = Some MoreExamples.annotated) as Hd0.
  { rewrite <- Hd. vm_compute in Hi. by injection Hi as <-. }
  injection Hd0 as Hd0.
  split; [| split; [by rewrite Hd0 | exact Hext]].
  rewrite Hmeta by done. rewrite Hd0. by vm_compute.
Defined.

(** *** The output path *)




(** X17: the metric name is not mandatory; in a completed invocation
    that was not given one, the text <undefined> stands for it in the output
    file name and in the map name. *)
Theorem X17_metric_omitted cwd raw w out w' :
  MetricMath.call cwd raw w = (Ok out, w') -> raw !! "metric" = None ->
  exists img d0 img' d0' h,
    transforms cwd raw w out w' img d0 img' d0' /\
    raw !! "hemisphere" = Some h /\
    out = Py.path_join cwd (Py.lower h +:+ "h.<undefined>.native.shape.gii") /\
    meta d0' !! "Name" =
      Some (default "sub-XYZ" (raw !! "subject_id") +:+ "_" +:+ h +:+ "_<undefined>").
Proof.
  intros Hc Hm.
  destruct (call_transforms _ _ _ _ _ Hc)
    as (img & d0 & img' & d0' & h & st & data' & dt' & HT & Hh & _ & _ & Hd0' & _ & Ho).
  exists img, d0, img', d0', h.
  split; [exact HT |]. split; [exact Hh |].
  rewrite Hm in *. split; [exact Ho |].
  rewrite Hd0'. simpl. by rewrite lookup_insert_eq.
Qed.

(** X17 at the int32 example without metric. *)
Lemma X17_witness :
  exists w',
    MetricMath.call "/work" (delete "metric" (inputs_of "abs"))
      (world_of ints NIFTI_TYPE_INT32)
    = (Ok "/work/lh.<undefined>.native.shape.gii", w') /\
    exists img d0 img' d0',
      transforms "/work" (delete "metric" (inputs_of "abs"))
        (world_of ints NIFTI_TYPE_INT32) "/work/lh.<undefined>.native.shape.gii" w'
        img d0 img' d0' /\
      meta d0' !! "Name" = Some "sub-XYZ_L_<undefined>".
Proof.
  destruct (MetricMath.call "/work" (delete "metric" (inputs_of "abs"))
              (world_of ints NIFTI_TYPE_INT32)) as [r w'] eqn:E.
  assert (r = Ok "/work/lh.<undefined>.native.shape.gii") as ->
    by (vm_compute in E; by injection E as <- _).
  exists w'. split; [reflexivity |].
  destruct (X17_metric_omitted "/work" (delete "metric" (inputs_of "abs"))
              (world_of ints NIFTI_TYPE_INT32) _ _ E eq_refl)
    as (img & d0 & img' & d0' & h & HT & Hh & _ & Hname).
  exists img, d0, img', d0'. split; [exact HT |].
  rewrite Hname. vm_compute in Hh. by injection Hh as <-.
Defined.

End MetricMathExtras.

(** * Further properties of the workbench wrappers *)

Section CommandLineExtras.
Import nipype WB Obs Examples Paths.

Local Ltac by_membership :=
  repeat first [apply list_elem_of_here | apply list_elem_of_further].

Local Arguments split_filename : simpl never.

(** X10: an out_file given by the caller replaces the derived name: when
    it holds no %s it is the third argument as it is, and when it is %s
    followed by text without a percent sign it is used as the template,
    filled with the base name of the metric file. *)
Theorem X10_explicit_out_file inputs s m o c suffix :
  inputs !! "surface_file" = Some s -> inputs !! "metric_file" = Some m ->
  inputs !! "out_file" = Some o -> (c, suffix) ∈ wrappers ->
  (has_conversion o = false ->
   cmdline c inputs =
     Ok (String.concat " " ([_cmd c; s; m; o] ++ corrected_areas_args inputs)%list)) /\
  (forall rest, o = String "%" (String "s" rest) -> Py.plain rest = true ->
   cmdline c inputs =
     Ok (String.concat " "
           ([_cmd c; s; m; base_name m +:+ rest] ++ corrected_areas_args inputs)%list)).
Proof.
  intros Hs Hm Ho Hc. destruct (wrappers_spec c suffix Hc) as (cmd & -> & _). split.
  - intros Hconv. apply wb_cmdline_out; [done | done |].
    intros n. by apply out_file_verbatim.
  - intros rest -> Hp. apply wb_cmdline_out; [done | done |].
    intros n. by apply out_file_template.
Qed.

(** X10 with the output name roi.out.gii. *)
Lemma X10_witness :
  cmdline MetricFillHoles.MetricFillHoles (<["out_file" := "roi.out.gii"]> wb_inputs) =
    Ok (String.concat " "
          ["wb_command -metric-fill-holes"; "lh.midthickness.surf.gii";
           "lh.roi.shape.gii"; "roi.out.gii"]).
Proof.
  refine (proj1 (X10_explicit_out_file (<["out_file" := "roi.out.gii"]> wb_inputs)
                   "lh.midthickness.surf.gii" "lh.roi.shape.gii" "roi.out.gii"
                   MetricFillHoles.MetricFillHoles "_filled.shape.gii" _ _ _ _) _);
    first [by vm_compute | by_membership].
Defined.

(** *** Where the output goes *)

(** X11: the derived output name has no directory part, and is the same
    wherever the metric file lives: for a metric file dir/name the command
    gets the output name derived from name alone, so that the output is
    created in the working directory of the command, not beside the input. *)
Theorem X11_output_in_cwd inputs s d f c suffix :
  inputs !! "surface_file" = Some s ->
  inputs !! "metric_file" = Some (d +:+ "/" +:+ f) ->
  inputs !! "out_file" = None -> no_sep f = true -> (c, suffix) ∈ wrappers ->
  cmdline c inputs =
    Ok (String.concat " "
          ([_cmd c; s; d +:+ "/" +:+ f; base_name f +:+ suffix]
             ++ corrected_areas_args inputs)%list) /\
  no_sep (base_name f +:+ suffix) = true.
Proof.
  intros Hs Hm Ho Hf Hc.
  assert (no_sep suffix = true) as Hsuf.
  { unfold wrappers in Hc.
    repeat (apply elem_of_cons in Hc as [[= -> ->] | Hc]); [| | by apply elem_of_nil in Hc];
      reflexivity. }
  destruct (wrappers_spec c suffix Hc) as (cmd & -> & Hp). split.
  - rewrite (wb_cmdline cmd suffix inputs s _ Hp Hs Hm Ho). cbn [_cmd].
    by rewrite (base_name_of_basename (d +:+ "/" +:+ f)), basename_dir.
  - by rewrite no_sep_app, base_name_no_sep, Hsuf.
Qed.

(** X11 for a metric file in /data/sub-01. *)
Lemma X11_witness :
  cmdline MetricRemoveIslands.MetricRemoveIslands
    (<["metric_file" := "/data/sub-01" +:+ "/" +:+ "lh.roi.shape.gii"]> wb_inputs) =
    Ok (String.concat " "
          ["wb_command -metric-remove-islands"; "lh.midthickness.surf.gii";
           "/data/sub-01" +:+ "/" +:+ "lh.roi.shape.gii";
           base_name "lh.roi.shape.gii" +:+ "_noislands.shape.gii"]).
Proof.
  refine (proj1 (X11_output_in_cwd
                   (<["metric_file" := "/data/sub-01" +:+ "/" +:+ "lh.roi.shape.gii"]>
                      wb_inputs)
                   "lh.midthickness.surf.gii" "/data/sub-01" "lh.roi.shape.gii"
                   MetricRemoveIslands.MetricRemoveIslands "_noislands.shape.gii"
                   _ _ _ _ _));
    first [by vm_compute | by_membership].
Defined.

(** *** Names that end in .gii *)

(** X12: for a metric file whose name is <stem>.gii (the stem not made of
    dots only) the base name is the stem, whatever dots it holds, and the
    output name is <stem>_filled.shape.gii or <stem>_noislands.shape.gii:
    only the last extension is dropped. *)
Theorem X12_gii_names inputs s m stem c suffix :
  inputs !! "surface_file" = Some s -> inputs !! "metric_file" = Some m ->
  inputs !! "out_file" = None ->
  basename m = stem +:+ ".gii" -> all_chars "." stem = false ->
  (c, suffix) ∈ wrappers ->
  base_name m = stem /\ extension m = ".gii" /\
  cmdline c inputs =
    Ok (String.concat " "
          ([_cmd c; s; m; stem +:+ suffix] ++ corrected_areas_args inputs)%list).
Proof.
  intros Hs Hm Ho Hb Hstem Hc.
  pose proof (split_filename_gii m stem Hb Hstem) as Hsf.
  assert (base_name m = stem) as Hbase by (unfold base_name; by rewrite Hsf).
  split; [exact Hbase |]. split; [unfold extension; by rewrite Hsf |].
  destruct (wrappers_spec c suffix Hc) as (cmd & -> & Hp).
  rewrite (wb_cmdline cmd suffix inputs s m Hp Hs Hm Ho). by rewrite Hbase.
Qed.

(** X12 at the metric file of the doctests. *)
Lemma X12_witness :
  base_name "lh.roi.shape.gii" = "lh.roi.shape".
Proof.
  refine (proj1 (X12_gii_names wb_inputs "lh.midthickness.surf.gii" "lh.roi.shape.gii"
                   "lh.roi.shape" MetricFillHoles.MetricFillHoles "_filled.shape.gii"
                   _ _ _ _ _ _));
    first [by vm_compute | by_membership].
Defined.

(** *** The output is not the input *)

Lemma lower_char_dot c : Py.lower_char c = "."%char -> c = "."%char.
Proof. destruct c as [[] [] [] [] [] [] [] []]; vm_compute; congruence. Qed.

Lemma rsplit_dot_ext s root ext :
  rsplit_dot s = Some (root, ext) -> exists r, ext = String "." r.
Proof.
  revert root. induction s as [| c s IH]; intros root; cbn [rsplit_dot]; [discriminate |].
  destruct (rsplit_dot s) as [[r e]|].
  - intros [= <- <-]. by eapply IH.
  - destruct (Ascii.eqb_spec c "."); [| discriminate]. intros [= <- <-]. subst. eauto.
Qed.

Lemma split_special_ext fname exts b e :
  (forall x, x ∈ exts -> exists r, Py.lower x = String "." r) ->
  split_special fname exts = Some (b, e) -> exists r, e = String "." r.
Proof.
  revert b e. induction exts as [| x exts IH]; intros b e Hx; cbn [split_special];
    [discriminate |].
  destruct (String.length x <? String.length fname)%nat; simpl;
    [| apply IH; intros; apply Hx; by right].
  destruct (String.eqb_spec
              (Py.lower (substring (String.length fname - String.length x)
                           (String.length x) fname)) (Py.lower x)) as [Heq | _];
    [| apply IH; intros; apply Hx; by right].
  intros [= <- <-]. destruct (Hx x) as [r Hr]; [by left |].
  rewrite Hr in Heq.
  destruct (substring _ _ fname) as [| c1 rest]; [discriminate |].
  cbn [Py.lower] in Heq. injection Heq as Hc _.
  apply lower_char_dot in Hc. subst. eauto.
Qed.

(** The extension is empty or starts with a dot. *)
Lemma extension_dot p : extension p = "" \/ exists r, extension p = String "." r.
Proof.
  unfold extension, split_filename.
  destruct (split_special (basename p) special_extensions) as [[b e]|] eqn:E.
  - right. simpl. eapply split_special_ext; [| exact E].
    unfold special_extensions. intros x Hx.
    repeat (apply elem_of_cons in Hx as [-> | Hx]); [| | | by apply elem_of_nil in Hx];
      eexists; by vm_compute.
  - unfold splitext. destruct (rsplit_dot (basename p)) as [[root ext]|] eqn:R; [| by left].
    destruct (all_chars "." root); [by left |].
    right. simpl. by eapply rsplit_dot_ext.
Qed.

(** X13: the derived output name is never the path of the metric file it
    is derived from: neither wrapper overwrites its input. *)
Theorem X13_output_is_not_input inputs m c suffix n :
  inputs !! "metric_file" = Some m -> inputs !! "out_file" = None ->
  (c, suffix) ∈ wrappers ->
  exists out,
    _filename_from_source (S n) (input_spec c) inputs "out_file" [] = Ok (Some out) /\
    out <> m.
Proof.
  intros Hm Ho Hc.
  assert (no_sep suffix = true /\ exists r, suffix = String "_" r) as [Hsuf [r Hr]].
  { unfold wrappers in Hc.
    repeat (apply elem_of_cons in Hc as [[= -> ->] | Hc]); [| | by apply elem_of_nil in Hc];
      split; eauto. }
  destruct (wrappers_spec c suffix Hc) as (cmd & -> & Hp).
  exists (base_name m +:+ suffix). split; [by apply out_file_from_source |].
  intros Heq.
  assert (no_sep m = true) as Hns
    by (by rewrite <- Heq, no_sep_app, base_name_no_sep, Hsuf).
  pose proof (split_filename_basename m) as Hsplit.
  pose proof (extension_dot m) as Hext.
  unfold base_name in Heq. unfold extension in Hext.
  destruct (split_filename m) as [[pth base] ext]. simpl in Heq, Hext.
  rewrite (basename_id m Hns), <- Heq in Hsplit.
  apply String.app_inj in Hsplit. rewrite Hr in Hsplit.
  destruct Hext as [-> | [r' ->]]; discriminate Hsplit.
Qed.

(** X13 at the metric file of the doctests. *)
Lemma X13_witness :
  exists out,
    _filename_from_source 5 MetricFillHoles.MetricFillHolesInputSpec wb_inputs "out_file" []
      = Ok (Some out) /\
    out <> "lh.roi.shape.gii".
Proof.
  refine (X13_output_is_not_input wb_inputs "lh.roi.shape.gii"
            MetricFillHoles.MetricFillHoles "_filled.shape.gii" 4 _ _ _);
    first [by vm_compute | by_membership].
Defined.

(** *** Validation and execution *)

(** X14: the optional corrected_areas is checked like the mandatory
    files: when it is given and names no file, the call stops with an input
    error and no process is spawned. *)
Theorem X14_corrected_areas_checked execute raw w a c suffix :
  raw !! "corrected_areas" = Some a -> files w !! a = None ->
  (c, suffix) ∈ wrappers ->
  fails_on_input (call execute c raw) w /\
  spawned (call execute c raw w).2 = spawned w.
Proof.
  intros Ha Hf Hc. destruct (wrappers_spec c suffix Hc) as (cmd & -> & _).
  assert (fails_on_input (call execute (mk_command cmd (wb_metric_spec suffix)) raw) w)
    as (e & He & Hie).
  { unfold fails_on_input, call, run, bind, lift.
    pose proof (set_inputs_world (wb_metric_spec suffix) raw w) as Hw.
    cbn [input_spec].
    destruct (set_inputs (wb_metric_spec suffix) raw w) as [[[]|e] w1] eqn:Hs;
      simpl in Hw; subst.
    - assert (validate "corrected_areas"
                (mk_trait (File true) false (Some "-corrected-areas %s") None None None false)
                a w = (Ok tt, w)) as Hv.
      { eapply set_inputs_ok; [exact Hs | | exact Ha].
        unfold wb_metric_spec. by_membership. }
      unfold validate, path_exists in Hv. simpl in Hv. rewrite Hf in Hv.
      rewrite bool_decide_eq_false_2 in Hv by (by intros [? ?]). discriminate.
    - rewrite (set_inputs_error _ _ _ _ _ Hs). by exists TraitError. }
  rewrite He. split; [by exists e | done].
Qed.

(** X14 in a world that lacks the areas file. *)
Lemma X14_witness :
  fails_on_input (call quiet_tool MetricFillHoles.MetricFillHoles wb_inputs_areas)
    (mk_world {[ "lh.midthickness.surf.gii" := OtherFile "surface";
                 "lh.roi.shape.gii" := OtherFile "roi" ]} [] pc).
Proof.
  refine (proj1 (X14_corrected_areas_checked quiet_tool wb_inputs_areas _ "areas.shape.gii"
                   MetricFillHoles.MetricFillHoles "_filled.shape.gii" _ _ _));
    first [by vm_compute | by_membership].
Defined.

(** *** One wrapper after the other *)

(** X16: the output name of one wrapper, given as metric file to the
    other, keeps both marks: from <stem>.gii, MetricFillHoles then
    MetricRemoveIslands name their outputs <stem>_filled.shape.gii and
    <stem>_filled.shape_noislands.shape.gii. *)
Theorem X16_chained_names inputs1 inputs2 stem out1 :
  no_sep stem = true -> all_chars "." stem = false ->
  inputs1 !! "metric_file" = Some (stem +:+ ".gii") -> inputs1 !! "out_file" = None ->
  _filename_from_source 5 MetricFillHoles.MetricFillHolesInputSpec inputs1 "out_file" []
    = Ok (Some out1) ->
  inputs2 !! "metric_file" = Some out1 -> inputs2 !! "out_file" = None ->
  out1 = stem +:+ "_filled.shape.gii" /\
  _filename_from_source 5 MetricRemoveIslands.MetricRemoveIslandsInputSpec inputs2
    "out_file" [] = Ok (Some (stem +:+ "_filled.shape_noislands.shape.gii")).
Proof.
  intros Hns Hd Hm1 Ho1 Hout1 Hm2 Ho2.
  change MetricFillHoles.MetricFillHolesInputSpec
    with (wb_metric_spec "_filled.shape.gii") in Hout1.
  rewrite (out_file_from_source "_filled.shape.gii" _ _ _ eq_refl Hm1 Ho1) in Hout1.
  injection Hout1 as <-.
  rewrite base_name_gii in * by done. split; [reflexivity |].
  change MetricRemoveIslands.MetricRemoveIslandsInputSpec
    with (wb_metric_spec "_noislands.shape.gii").
  rewrite (out_file_from_source "_noislands.shape.gii" _ _ _ eq_refl Hm2 Ho2).
  change (stem +:+ "_filled.shape.gii") with (stem +:+ ("_filled.shape" +:+ ".gii")).
  rewrite <- string_app_assoc.
  rewrite base_name_gii.
  - rewrite string_app_assoc. reflexivity.
  - by rewrite no_sep_app, Hns.
  - rewrite all_chars_app. by rewrite andb_false_r.
Qed.

(** X16 from lh.roi.gii. *)
Lemma X16_witness :
  _filename_from_source 5 MetricRemoveIslands.MetricRemoveIslandsInputSpec
    (<["metric_file" := "lh.roi_filled.shape.gii"]> wb_inputs) "out_file" []
  = Ok (Some ("lh.roi" +:+ "_filled.shape_noislands.shape.gii")).
Proof.
  refine (proj2 (X16_chained_names (<["metric_file" := "lh.roi.gii"]> wb_inputs)
                   (<["metric_file" := "lh.roi_filled.shape.gii"]> wb_inputs)
                   "lh.roi" "lh.roi_filled.shape.gii" _ _ _ _ _ _ _)); by vm_compute.
Defined.

End CommandLineExtras.
